(** * The Python import parser of emerge ([emerge/languages/pyparser.py])

  A shallow embedding of [PythonParser]: the keyword enum, the token
  mapping, the line reconstruction loop and the pyparsing grammar of
  [_add_imports_to_result], the file result construction of
  [generate_file_result_from_analysis] and the two unsupported entity
  operations.

  Python [str] values are modelled as [string] (the characters with a code
  below 256, as [ascii]), Python lists as [list], the results dictionary as a
  [gmap string FileResult.t], raised exceptions as the left injection of a
  sum type, and the mutable [analysis] object as a cell of an explicit
  heap, because [_add_imports_to_result] reaches it through two names
  ([analysis] and [result.analysis]). *)

From Stdlib Require Import Ascii String.
From stdpp Require Import base strings list gmap.

(** ** Characters and Python string primitives *)

Module PyStr.

Definition chr_newline : ascii := "010"%char.
Definition chr_tab : ascii := "009"%char.
Definition chr_vt : ascii := "011"%char.
Definition chr_ff : ascii := "012"%char.
Definition chr_cr : ascii := "013"%char.
Definition chr_blank : ascii := " "%char.
Definition chr_dquote : ascii := "034"%char.
Definition chr_nel : ascii := "133"%char.
Definition chr_nbsp : ascii := "160"%char.

Definition str1 (c : ascii) : string := String c EmptyString.

Definition between (lo hi : nat) (c : ascii) : bool :=
  (lo <=? nat_of_ascii c) && (nat_of_ascii c <=? hi).

(** [pp.alphas], [pp.nums], [pp.alphanums]: ASCII letters and digits. *)
Definition is_alpha (c : ascii) : bool := between 65 90 c || between 97 122 c.
Definition is_num (c : ascii) : bool := between 48 57 c.
Definition is_alphanum (c : ascii) : bool := is_alpha c || is_num c.

(** [c in chars] for a string used as a character set. *)
Fixpoint char_in (c : ascii) (chars : string) : bool :=
  match chars with
  | EmptyString => false
  | String d chars' => Ascii.eqb c d || char_in c chars'
  end.

(** [s.startswith(p)]. *)
Fixpoint startswith (p s : string) : bool :=
  match p, s with
  | EmptyString, _ => true
  | String a p', String b s' => Ascii.eqb a b && startswith p' s'
  | String _ _, EmptyString => false
  end.

(** [sub in s] on strings: substring test. *)
Fixpoint contains (sub s : string) : bool :=
  match s with
  | EmptyString => startswith sub EmptyString
  | String _ s' => startswith sub s || contains sub s'
  end.

(** [s[:-1]]: everything but the last character; [''[:-1]] is ['']. *)
Fixpoint drop_last (s : string) : string :=
  match s with
  | EmptyString => EmptyString
  | String c EmptyString => EmptyString
  | String c s' => String c (drop_last s')
  end.

(** [sep.join(l)]. *)
Fixpoint join (sep : string) (l : list string) : string :=
  match l with
  | [] => EmptyString
  | [x] => x
  | x :: l' => x +:+ sep +:+ join sep l'
  end.

(** [s.replace(old, new)]: every non-overlapping occurrence of [old],
    scanning from the left.  [skip] counts the characters of an occurrence
    just replaced that are still to be passed over. *)
Fixpoint replace_from (old new : string) (skip : nat) (s : string) : string :=
  match s with
  | EmptyString => EmptyString
  | String c s' =>
      match skip with
      | S k => replace_from old new k s'
      | O =>
          if startswith old s
          then new +:+ replace_from old new (String.length old - 1) s'
          else String c (replace_from old new 0 s')
      end
  end.

Fixpoint intersperse_all (new s : string) : string :=
  match s with
  | EmptyString => new
  | String c s' => new +:+ String c (intersperse_all new s')
  end.

Definition replace (s old new : string) : string :=
  match old with
  | EmptyString => intersperse_all new s
  | String _ _ => replace_from old new 0 s
  end.

(** [s.split('/')]. *)
Fixpoint split_on (sep : ascii) (cur : string) (s : string) : list string :=
  match s with
  | EmptyString => [cur]
  | String c s' =>
      if Ascii.eqb c sep then cur :: split_on sep EmptyString s'
      else split_on sep (cur +:+ str1 c) s'
  end.

End PyStr.

Import PyStr.

(** ** Exceptions *)

(** The two exception classes that occur: the [NotImplementedError] raised
  by the entity operations and pyparsing's [ParseException]. *)
Inductive exn : Type :=
| NotImplementedError (msg : string)
| ParseException (msg : string).

(** A call either raises or returns. *)
Definition py (A : Type) : Type := exn + A.

Definition raise {A} (e : exn) : py A := inl e.

#[global] Instance py_ret : MRet py := fun A a => inr a.
#[global] Instance py_bind : MBind py := fun A B k m =>
match m with
| inl e => inl e
| inr a => k a
end.

(** [try: body except Exception: handler]. *)
Definition try_except {A} (body : py A) (handler : exn → py A) : py A :=
match body with
| inl e => handler e
| inr a => inr a
end.

(** ** Keywords *)

(** [PythonParsingKeyword]: the enum and its [.value]. *)
Module PythonParsingKeyword.
Inductive t : Type := IMPORT | FROM | INLINE_COMMENT | BLOCK_COMMENT | NEWLINE | EMPTY | BLANK.

Definition value (k : t) : string :=
  match k with
  | IMPORT => "import"
  | FROM => "from"
  | INLINE_COMMENT => "#"
  | BLOCK_COMMENT => String chr_dquote (String chr_dquote (String chr_dquote EmptyString))
  | NEWLINE => str1 chr_newline
  | EMPTY => EmptyString
  | BLANK => " "
  end.
End PythonParsingKeyword.

(** Modelled from the spec: [CoreParsingKeyword] is declared in
  [emerge/languages/abstractparser.py], which is not part of the sources.
  The four characters are the ones the spec lists for the valid-name class
  (alphanumerics plus [.], [_], [-], [/]); [IMPORT_ENTITY_NAME] is only used
  as the key under which the grammar stores the captured name. *)
Module CoreParsingKeyword.
Inductive t : Type := DOT | UNDERSCORE | DASH | SLASH | IMPORT_ENTITY_NAME.

Definition value (k : t) : string :=
  match k with
  | DOT => "."
  | UNDERSCORE => "_"
  | DASH => "-"
  | SLASH => "/"
  | IMPORT_ENTITY_NAME => "import_entity_name"
  end.
End CoreParsingKeyword.

(** [Parser.PYTHON_PARSER.name]: the name of an enum member is its
  identifier. *)
Definition parser_name : string := "PYTHON_PARSER".

(** Modelled from the spec: [LanguageType] is declared in
  [emerge/languages/abstractparser.py]; the source only uses its member
  [C].  [PY] stands for the Python tag the parser does not use. *)
Inductive LanguageType : Type := C | PY.

(** [self._token_mappings], assigned once in [__init__] and never changed:
    the dictionary in insertion order.  The value for the opening brace
    starts with a no-break space (U+00A0, line 43), all other values are
    padded with blanks.  The last key is the double quote. *)
Definition _token_mappings : list (string * string) :=
  [ (":", " : "); (";", " ; "); ("{", str1 chr_nbsp +:+ "{ "); ("}", " } ");
    ("(", " ( "); (")", " ) "); ("[", " [ "); ("]", " ] ");
    ("?", " ? "); ("!", " ! "); (",", " , "); ("<", " < "); (">", " > ");
    (str1 chr_dquote, " " +:+ str1 chr_dquote +:+ " ") ].

(** ** Tokenizer and comment filter *)

(** Modelled from the spec: the whitespace on which the tokenizer of spec 4.1
    splits.  It is whitespace as Python strings have it ([str.isspace],
    [str.split()] and the class [\s] of [re] agree on it); among the
    characters below 256 these are the codes 9 to 13, 28 to 32, 133 and 160,
    the no-break space. *)
Definition is_space (c : ascii) : bool :=
  between 9 13 c || between 28 32 c || Ascii.eqb c chr_nel || Ascii.eqb c chr_nbsp.

(** Modelled from the spec: a token that was being read ends; whitespace-only
    runs give no token (spec 4.1). *)
Definition flush (word : string) : list string :=
  match word with
  | EmptyString => []
  | String _ _ => [word]
  end.

(** Modelled from the spec: splitting on whitespace with every newline kept
    as a token of its own (spec 4.1); [word] is the token being read and
    [flush] ends it. *)
Fixpoint split_preserving_newlines (word : string) (s : string) : list string :=
  match s with
  | EmptyString => flush word
  | String c s' =>
      if Ascii.eqb c chr_newline
      then flush word ++ str1 chr_newline :: split_preserving_newlines EmptyString s'
      else if is_space c
      then flush word ++ split_preserving_newlines EmptyString s'
      else split_preserving_newlines (word +:+ str1 c) s'
  end.

(** Modelled from the spec: each replacement of the mapping is applied to the
    content, in the order of the dictionary (spec 4.1). *)
Definition apply_mapping (content : string) (mapping_dict : list (string * string)) : string :=
  foldl (fun content '(origin, mapped) => replace content origin mapped) content mapping_dict.

(** Modelled from the spec: [ParsingMixin.preprocess_file_content_and_generate_token_list_by_mapping]
    lives in [emerge/languages/abstractparser.py], which is not part of the
    sources.  Spec 4.1: apply each mapping replacement to the content, then
    split the result on whitespace, preserving newline characters as
    standalone tokens; every input string is accepted. *)
Definition preprocess_file_content_and_generate_token_list_by_mapping
    (file_content : string) (mapping_dict : list (string * string)) : list string :=
  split_preserving_newlines EmptyString (apply_mapping file_content mapping_dict).

Inductive comment_mode : Type := InCode | InInlineComment | InBlockComment.

(** Modelled from the spec: the token scan of spec 4.2.  Tokens are
    classified by string equality (spec 3).  An inline marker discards
    tokens through the next newline, which is kept; a block marker discards
    tokens until the closing marker, or to the end of the stream. *)
Fixpoint filter_comment_tokens (line_c start_c stop_c : string) (mode : comment_mode)
    (tokens : list string) : list string :=
  match tokens with
  | [] => []
  | tok :: rest =>
      match mode with
      | InCode =>
          if String.eqb tok line_c
          then filter_comment_tokens line_c start_c stop_c InInlineComment rest
          else if String.eqb tok start_c
          then filter_comment_tokens line_c start_c stop_c InBlockComment rest
          else tok :: filter_comment_tokens line_c start_c stop_c InCode rest
      | InInlineComment =>
          if String.eqb tok (str1 chr_newline)
          then tok :: filter_comment_tokens line_c start_c stop_c InCode rest
          else filter_comment_tokens line_c start_c stop_c InInlineComment rest
      | InBlockComment =>
          if String.eqb tok stop_c
          then filter_comment_tokens line_c start_c stop_c InCode rest
          else filter_comment_tokens line_c start_c stop_c InBlockComment rest
      end
  end.

(** Modelled from the spec: [ParsingMixin._filter_source_tokens_without_comments]
    lives in [emerge/languages/abstractparser.py], which is not part of the
    sources.  Spec 4.2 gives the scan above.  The caller binds the result to
    [source_string_no_comments] and hands it to the tokenizer, which takes
    text, so the surviving tokens are returned as one string, separated by
    single blanks. *)
Definition _filter_source_tokens_without_comments (list_of_words : list string)
    (line_comment_string start_block_comment_string stop_block_comment_string : string) : string :=
  join " " (filter_comment_tokens line_comment_string start_block_comment_string
              stop_block_comment_string InCode list_of_words).

(** ** The pyparsing elements used by the grammar *)

(** pyparsing works on the input string and a location.  A cursor keeps what
    a parser element can observe of them: the text from the location on, and
    the character just before it ([None] at location 0), which [Keyword]
    inspects.  [parseString] expands tabs first; tabs and blanks are both
    skipped as whitespace and belong to no character class used here, so the
    expansion changes locations only and is left out. *)
Record cursor : Type := Cursor { before : option ascii; rest : string }.

(** [ParseResults]: the token list and the named results. *)
Record ParseResults : Type := Results {
  tokens : list string;
  named : list (string * string)
}.

Definition no_results : ParseResults := Results [] [].

Definition merge_results (a b : ParseResults) : ParseResults :=
  Results (tokens a ++ tokens b) (named a ++ named b).

Definition ParserElement : Type := cursor → py (ParseResults * cursor).

(** Default whitespace characters of pyparsing: blank, newline, tab, return. *)
Definition is_pp_white (c : ascii) : bool :=
  char_in c (String chr_blank (String chr_newline (String chr_tab (String chr_cr EmptyString)))).

(** [preParse]: skip leading whitespace. *)
Fixpoint skip_white (prev : option ascii) (s : string) : cursor :=
  match s with
  | EmptyString => Cursor prev s
  | String c s' => if is_pp_white c then skip_white (Some c) s' else Cursor prev s
  end.

Definition preParse (cur : cursor) : cursor := skip_white (before cur) (rest cur).

(** [Keyword.DEFAULT_KEYWORD_CHARS]: [alphanums + "_$"]. *)
Definition is_ident_char (c : ascii) : bool := is_alphanum c || char_in c "_$".

(** The cursor after reading [n] characters. *)
Fixpoint advance (n : nat) (prev : option ascii) (s : string) : cursor :=
  match n, s with
  | S n', String c s' => advance n' (Some c) s'
  | _, _ => Cursor prev s
  end.

Definition opt_test (f : ascii → bool) (o : option ascii) : bool :=
  match o with
  | Some c => f c
  | None => false
  end.

Definition head_char (s : string) : option ascii :=
  match s with
  | EmptyString => None
  | String c _ => Some c
  end.

(** [pp.Keyword(match)]: the literal, not immediately followed and not
    immediately preceded by an identifier character.  The name of the
    element is the literal in double quotes, and its message is [Expected]
    and the name. *)
Definition Keyword (kw : string) : ParserElement := fun cur =>
  let cur := preParse cur in
  let after := advance (String.length kw) (before cur) (rest cur) in
  if startswith kw (rest cur)
     && negb (opt_test is_ident_char (head_char (rest after)))
     && negb (opt_test is_ident_char (before cur))
  then mret (Results [kw] [], after)
  else raise (ParseException ("Expected " +:+ str1 chr_dquote +:+ kw +:+ str1 chr_dquote)).

(** The longest prefix of [s] made of characters of the class, and the
    cursor after it. *)
Fixpoint take_while (f : ascii → bool) (prev : option ascii) (s : string) : string * cursor :=
  match s with
  | EmptyString => (EmptyString, Cursor prev s)
  | String c s' =>
      if f c
      then let '(w, cur) := take_while f (Some c) s' in (String c w, cur)
      else (EmptyString, Cursor prev s)
  end.

(** [pp.Word(chars)]: one or more characters of the class, as many as there
    are.  pyparsing names the element by the first four characters of the
    class, here of [pp.alphanums]. *)
Definition Word (chars : ascii → bool) : ParserElement := fun cur =>
  let cur := preParse cur in
  match take_while chars (before cur) (rest cur) with
  | (EmptyString, _) => raise (ParseException "Expected W:(ABCD...)")
  | (w, cur') => mret (Results [w] [], cur')
  end.

(** [expr.setResultsName(name)]: the matched token is also stored under
    [name]. *)
Definition setResultsName (e : ParserElement) (name : string) : ParserElement := fun cur =>
  '(r, cur') ← e cur;
  mret (Results (tokens r) (named r ++ map (fun t => (name, t)) (tokens r)), cur').

(** What the message of a failed element says it expected: the name of the
    element, after the word [Expected] and a blank. *)
Definition expected_of (e : exn) : string :=
  match e with
  | ParseException msg => String.substring 9 (String.length msg - 9) msg
  | NotImplementedError msg => msg
  end.

(** [a + b] ([And]) and [a | b] ([MatchFirst]).  [And] passes the exception
    of the operand that fails on.  When no alternative of [MatchFirst]
    matches, the exception it raises carries the message of the [MatchFirst]
    itself: [Expected], and in braces the names of the alternatives
    separated by a bar. *)
Definition And (a b : ParserElement) : ParserElement := fun cur =>
  '(ra, cur1) ← a cur;
  '(rb, cur2) ← b cur1;
  mret (merge_results ra rb, cur2).

Definition MatchFirst (a b : ParserElement) : ParserElement := fun cur =>
  try_except (a cur) (fun exception_a =>
    try_except (b cur) (fun exception_b =>
      raise (ParseException ("Expected {" +:+ expected_of exception_a +:+ " | "
                             +:+ expected_of exception_b +:+ "}")))).

(** [pp.FollowedBy(e)]: [e] must match here; nothing is consumed and no
    token is produced. *)
Definition FollowedBy (e : ParserElement) : ParserElement := fun cur =>
  _ ← e cur;
  mret (no_results, cur).

(** [pp.Optional(e)]: never fails. *)
Definition Optional (e : ParserElement) : ParserElement := fun cur =>
  try_except (e cur) (fun _ => mret (no_results, cur)).

(** [expr.parseString(line)] (without [parseAll]): parse from location 0. *)
Definition parseString (e : ParserElement) (instring : string) : py ParseResults :=
  '(r, _) ← e (Cursor None instring);
  mret r.

(** [getattr(parsing_result, name)]: the value stored last under [name], or
    [''] when there is none. *)
Definition getattr (r : ParseResults) (name : string) : string :=
  match last (filter (fun kv => kv.1 = name) (named r)) with
  | Some kv => kv.2
  | None => EmptyString
  end.

(** ** Analysis context, statistics and file results *)

(** Modelled from the spec: [Statistics] is declared in
    [emerge/statistics.py], which is not part of the sources.  Spec 3: two
    counters, parse hits and parse misses; [increment] adds one to the
    counter of the given key. *)
Module Statistics.
Inductive Key : Type := PARSING_HITS | PARSING_MISSES.

Record t : Type := Make { parsing_hits : nat; parsing_misses : nat }.

Definition increment (s : t) (k : Key) : t :=
  match k with
  | PARSING_HITS => Make (S (parsing_hits s)) (parsing_misses s)
  | PARSING_MISSES => Make (parsing_hits s) (S (parsing_misses s))
  end.
End Statistics.

(** Modelled from the spec: the analysis object is created by the
    orchestrator, which is not part of the sources.  Spec 6: it exposes the
    source root directory, the ignore-list predicate and the statistics. *)
Record Analysis : Type := {
  source_directory : string;
  ignore_list : string → bool;
  statistics : Statistics.t
}.

(** Analysis objects are shared and mutated in place, so they live in a heap
    and are passed by reference. *)
Definition ref : Type := nat.
Definition Heap : Type := ref → Analysis.

Definition increment_statistics (h : Heap) (a : ref) (k : Statistics.Key) : Heap :=
  fun r =>
    if bool_decide (r = a)
    then {| source_directory := source_directory (h a);
            ignore_list := ignore_list (h a);
            statistics := Statistics.increment (statistics (h a)) k |}
    else h r.

(** Modelled from the spec: [ParsingMixin._is_dependency_in_ignore_list]
    lives in [emerge/languages/abstractparser.py], which is not part of the
    sources.  Spec 4.5: the dependency is matched against the ignore
    configuration of the analysis, which is defined externally. *)
Definition _is_dependency_in_ignore_list (dependency : string) (analysis : Analysis) : bool :=
  ignore_list analysis dependency.

(** Modelled from the spec: an ignore configuration given as a list of
    entries (spec 4.5, substring or identity match): a dependency is ignored
    when one of the entries occurs in it. *)
Definition ignore_containing (entries : list string) : string → bool :=
  fun dependency => existsb (fun entry => contains entry dependency) entries.

(** Modelled from the spec: [FileResult] is declared in [emerge/results.py],
    which is not part of the sources.  The fields are the keyword arguments
    of [create_file_result], the [analysis] reference, the unique name and
    the dependency list of spec 3. *)
Module FileResult.
Record t : Type := {
  analysis : ref;
  scanned_file_name : string;
  relative_file_path_to_analysis : string;
  absolute_name : string;
  unique_name : string;
  display_name : string;
  module_name : option string;
  scanned_by : string;
  scanned_language : LanguageType;
  scanned_tokens : list string;
  scanned_import_dependencies : list string
}.

(** Modelled from the spec: [FileResult.create_file_result] is defined in
    [emerge/results.py].  Spec 3 and 4.6: the result is identified by a
    unique name derived from its path relative to the analysis root, owns the
    token stream it is given and starts with no dependency. *)
Definition create_file_result (analysis : ref)
    (scanned_file_name relative_file_path_to_analysis absolute_name display_name
       module_name scanned_by : string)
    (scanned_language : LanguageType) (scanned_tokens : list string) : t :=
  {| analysis := analysis;
     scanned_file_name := scanned_file_name;
     relative_file_path_to_analysis := relative_file_path_to_analysis;
     absolute_name := absolute_name;
     unique_name := relative_file_path_to_analysis;
     display_name := display_name;
     module_name := Some module_name;
     scanned_by := scanned_by;
     scanned_language := scanned_language;
     scanned_tokens := scanned_tokens;
     scanned_import_dependencies := [] |}.

(** [result.module_name = value]. *)
Definition set_module_name (result : t) (value : option string) : t :=
  {| analysis := analysis result;
     scanned_file_name := scanned_file_name result;
     relative_file_path_to_analysis := relative_file_path_to_analysis result;
     absolute_name := absolute_name result;
     unique_name := unique_name result;
     display_name := display_name result;
     module_name := value;
     scanned_by := scanned_by result;
     scanned_language := scanned_language result;
     scanned_tokens := scanned_tokens result;
     scanned_import_dependencies := scanned_import_dependencies result |}.

(** [result.scanned_import_dependencies.append(dependency)]. *)
Definition append_dependency (result : t) (dependency : string) : t :=
  {| analysis := analysis result;
     scanned_file_name := scanned_file_name result;
     relative_file_path_to_analysis := relative_file_path_to_analysis result;
     absolute_name := absolute_name result;
     unique_name := unique_name result;
     display_name := display_name result;
     module_name := module_name result;
     scanned_by := scanned_by result;
     scanned_language := scanned_language result;
     scanned_tokens := scanned_tokens result;
     scanned_import_dependencies := scanned_import_dependencies result ++ [dependency] |}.
End FileResult.

(** ** [pathlib.PosixPath]: parsing, [parent] and [str] *)

Module PosixPath.
Record t : Type := Make { root : string; names : list string }.

(** Number of leading slashes, and the text after them. *)
Fixpoint lstrip_slashes (s : string) : nat * string :=
  match s with
  | String c s' =>
      if Ascii.eqb c "/"%char
      then let '(n, r) := lstrip_slashes s' in (S n, r)
      else (0, s)
  | EmptyString => (0, s)
  end.

(** Exactly two leading slashes are kept as the root [//]; one, or three and
    more, give the root [/]. *)
Definition splitroot (part : string) : string * string :=
  let '(n, stripped) := lstrip_slashes part in
  match n with
  | 0 => (EmptyString, part)
  | 2 => ("//", stripped)
  | _ => ("/", stripped)
  end.

Definition is_name (x : string) : bool :=
  negb (String.eqb x EmptyString) && negb (String.eqb x ".").

(** [PosixPath(s)]: empty components and [.] are dropped. *)
Definition of_string (s : string) : t :=
  let '(root, rel) := splitroot s in
  Make root (List.filter is_name (split_on "/"%char EmptyString rel)).

(** [p.parent]: the path without its last component; a path that has none
    is its own parent. *)
Definition parent (p : t) : t := Make (root p) (removelast (names p)).

(** [str(p)]: the empty path prints as [.]. *)
Definition to_string (p : t) : string :=
  match root p +:+ join "/" (names p) with
  | EmptyString => "."
  | String c s => String c s
  end.
End PosixPath.

(** ** The parser *)

(** [PythonParser]: the instance attribute [_results]. *)
Record PythonParser : Type := { _results : gmap string FileResult.t }.

(** [__init__] *)
Definition __init__ : PythonParser := {| _results := ∅ |}.

(** The [results] property and its setter. *)
Definition results (self : PythonParser) : gmap string FileResult.t := _results self.

Definition set_results (self : PythonParser) (value : gmap string FileResult.t) : PythonParser :=
  {| _results := value |}.

(** [after_generated_file_results] is [pass]. *)
Definition after_generated_file_results (self : PythonParser) (analysis : ref) : PythonParser :=
  self.

(** [generate_entity_results_from_analysis] and [create_unique_entity_name]
    consist of a [raise] statement. *)
Definition generate_entity_results_from_analysis {R : Type}
    (self : PythonParser) (analysis : ref) : py R :=
  raise (NotImplementedError ("currently not implemented in " +:+ parser_name)).

Definition create_unique_entity_name {Entity R : Type}
    (self : PythonParser) (entity : Entity) : py R :=
  raise (NotImplementedError ("currently not implemented in " +:+ parser_name)).

(** The line loop of [_add_imports_to_result] (lines 111 to 122).  The two
    identity tests ([is not]) compare with the one-character string for
    newline and with the empty string, which CPython keeps as unique
    objects, so they are tests of equality. *)
Fixpoint collect_import_lines (words : list string) (line : string)
    (source_import_lines : list string) : list string :=
  match words with
  | [] => source_import_lines
  | word :: words' =>
      if negb (String.eqb word (PythonParsingKeyword.value PythonParsingKeyword.NEWLINE))
      then
        let line := line +:+ word in
        let line := line +:+ PythonParsingKeyword.value PythonParsingKeyword.BLANK in
        collect_import_lines words' line source_import_lines
      else
        let line := drop_last line in
        let source_import_lines :=
          if negb (String.eqb line (PythonParsingKeyword.value PythonParsingKeyword.EMPTY))
             && contains (PythonParsingKeyword.value PythonParsingKeyword.IMPORT) line
             && negb (bool_decide (line ∈ source_import_lines))
          then source_import_lines ++ [line]
          else source_import_lines in
        collect_import_lines words' (PythonParsingKeyword.value PythonParsingKeyword.EMPTY)
          source_import_lines
  end.

(** The parsing expression (lines 127 to 132). *)
Definition in_valid_name (c : ascii) : bool :=
  is_alphanum c
  || char_in c (CoreParsingKeyword.value CoreParsingKeyword.DOT
                +:+ CoreParsingKeyword.value CoreParsingKeyword.UNDERSCORE
                +:+ CoreParsingKeyword.value CoreParsingKeyword.DASH
                +:+ CoreParsingKeyword.value CoreParsingKeyword.SLASH).

Definition valid_name : ParserElement := Word in_valid_name.

Definition expression_to_match : ParserElement :=
  And (And (MatchFirst (Keyword (PythonParsingKeyword.value PythonParsingKeyword.IMPORT))
                       (Keyword (PythonParsingKeyword.value PythonParsingKeyword.FROM)))
           (setResultsName valid_name
              (CoreParsingKeyword.value CoreParsingKeyword.IMPORT_ENTITY_NAME)))
      (Optional (FollowedBy (Keyword (PythonParsingKeyword.value PythonParsingKeyword.IMPORT)))).

(** The body of the second loop (lines 134 to 150) for one retained line. *)
Definition import_line (analysis : ref) (line : string) (st : FileResult.t * Heap)
    : py (FileResult.t * Heap) :=
  let '(result, h) := st in
  match parseString expression_to_match line with
  | inl some_exception =>
      (* except Exception: count a miss on [result.analysis], continue *)
      mret (result, increment_statistics h (FileResult.analysis result) Statistics.PARSING_MISSES)
  | inr parsing_result =>
      let h := increment_statistics h analysis Statistics.PARSING_HITS in
      let dependency :=
        getattr parsing_result (CoreParsingKeyword.value CoreParsingKeyword.IMPORT_ENTITY_NAME) in
      if _is_dependency_in_ignore_list dependency (h analysis)
      then mret (result, h)
      else mret (FileResult.append_dependency result dependency, h)
  end.

Fixpoint import_lines (analysis : ref) (lines : list string) (st : FileResult.t * Heap)
    : py (FileResult.t * Heap) :=
  match lines with
  | [] => mret st
  | line :: lines' =>
      st' ← import_line analysis line st;
      import_lines analysis lines' st'
  end.

(** The retained lines of a result: lines 104 to 122. *)
Definition source_import_lines_of (scanned_tokens : list string) : list string :=
  let list_of_words_with_newline_strings := scanned_tokens in
  let source_string_no_comments :=
    _filter_source_tokens_without_comments list_of_words_with_newline_strings
      (PythonParsingKeyword.value PythonParsingKeyword.INLINE_COMMENT)
      (PythonParsingKeyword.value PythonParsingKeyword.BLOCK_COMMENT)
      (PythonParsingKeyword.value PythonParsingKeyword.BLOCK_COMMENT) in
  let filtered_list_no_comments :=
    preprocess_file_content_and_generate_token_list_by_mapping
      source_string_no_comments _token_mappings in
  collect_import_lines filtered_list_no_comments
    (PythonParsingKeyword.value PythonParsingKeyword.EMPTY) [].

Definition _add_imports_to_result (self : PythonParser) (result : FileResult.t)
    (analysis : ref) (h : Heap) : py (FileResult.t * Heap) :=
  import_lines analysis (source_import_lines_of (FileResult.scanned_tokens result)) (result, h).

Definition _add_package_name_to_result (self : PythonParser) (result : FileResult.t) : FileResult.t :=
  FileResult.set_module_name result None.

Definition generate_file_result_from_analysis (self : PythonParser) (h : Heap) (analysis : ref)
    (file_name full_file_path file_content : string) : py (PythonParser * Heap) :=
  let scanned_tokens :=
    preprocess_file_content_and_generate_token_list_by_mapping file_content _token_mappings in
  let parent_analysis_source_path :=
    PosixPath.to_string (PosixPath.parent (PosixPath.of_string (source_directory (h analysis))))
    +:+ "/" in
  let relative_file_path_to_analysis := replace full_file_path parent_analysis_source_path "" in
  let file_result :=
    FileResult.create_file_result analysis file_name relative_file_path_to_analysis full_file_path
      file_name "" parser_name C scanned_tokens in
  let file_result := _add_package_name_to_result self file_result in
  '(file_result, h) ← _add_imports_to_result self file_result analysis h;
  mret ({| _results := <[FileResult.unique_name file_result := file_result]> (_results self) |}, h).

(** ** Vocabulary of the statements *)

(** What a file result is apart from its dependency list. *)
Definition without_dependencies (r : FileResult.t) : FileResult.t :=
  {| FileResult.analysis := FileResult.analysis r;
     FileResult.scanned_file_name := FileResult.scanned_file_name r;
     FileResult.relative_file_path_to_analysis := FileResult.relative_file_path_to_analysis r;
     FileResult.absolute_name := FileResult.absolute_name r;
     FileResult.unique_name := FileResult.unique_name r;
     FileResult.display_name := FileResult.display_name r;
     FileResult.module_name := FileResult.module_name r;
     FileResult.scanned_by := FileResult.scanned_by r;
     FileResult.scanned_language := FileResult.scanned_language r;
     FileResult.scanned_tokens := FileResult.scanned_tokens r;
     FileResult.scanned_import_dependencies := [] |}.

(** The result a file starts import extraction with. *)
Definition fresh_result (h : Heap) (analysis : ref) (file_name full_file_path file_content : string)
    : FileResult.t :=
  _add_package_name_to_result __init__
    (FileResult.create_file_result analysis file_name
       (replace full_file_path
          (PosixPath.to_string
             (PosixPath.parent (PosixPath.of_string (source_directory (h analysis)))) +:+ "/") "")
       full_file_path file_name "" parser_name C
       (preprocess_file_content_and_generate_token_list_by_mapping file_content _token_mappings)).

(** [f"{PosixPath(analysis.source_directory).parent}/"] *)
Definition parent_analysis_source_path (source_directory : string) : string :=
  PosixPath.to_string (PosixPath.parent (PosixPath.of_string source_directory)) +:+ "/".

(** The stream that import extraction works on: the stored tokens after the
    comment filter and the second tokenization (lines 106 to 108). *)
Definition filtered_list_no_comments_of (scanned_tokens : list string) : list string :=
  preprocess_file_content_and_generate_token_list_by_mapping
    (_filter_source_tokens_without_comments scanned_tokens
       (PythonParsingKeyword.value PythonParsingKeyword.INLINE_COMMENT)
       (PythonParsingKeyword.value PythonParsingKeyword.BLOCK_COMMENT)
       (PythonParsingKeyword.value PythonParsingKeyword.BLOCK_COMMENT))
    _token_mappings.

Definition newline : string := PythonParsingKeyword.value PythonParsingKeyword.NEWLINE.

(** Every character of [s] satisfies [f]. *)
Fixpoint all_chars (f : ascii → bool) (s : string) : bool :=
  match s with
  | EmptyString => true
  | String c s' => f c && all_chars f s'
  end.

(** The logical lines of a token stream: the tokens between two newline
    tokens, each group closed by a newline token.  Tokens after the last
    newline token form no line. *)
Fixpoint segments_from (buffer : list string) (words : list string) : list (list string) :=
  match words with
  | [] => []
  | word :: words' =>
      if String.eqb word newline
      then buffer :: segments_from [] words'
      else segments_from (buffer ++ [word]) words'
  end.

(** A logical line as text: its tokens joined by single blanks. *)
Definition logical_lines (words : list string) : list string :=
  map (join " ") (segments_from [] words).

(** The line buffer of the loop after the tokens of [buffer] were added:
    every token followed by a blank. *)
Fixpoint buffer_text (buffer : list string) : string :=
  match buffer with
  | [] => EmptyString
  | word :: buffer' => word +:+ " " +:+ buffer_text buffer'
  end.

(** Non-empty and with the text [import] somewhere in it. *)
Definition mentions_import (line : string) : bool :=
  negb (String.eqb line EmptyString) && contains "import" line.

(** Non-empty and with [import] as one of its tokens. *)
Definition has_import_token (segment : list string) : bool :=
  negb (String.eqb (join " " segment) EmptyString) && bool_decide ("import" ∈ segment).

(** The lines of [lines] that are neither in [seen] nor a repetition of an
    earlier line, in the order of their first occurrence. *)
Fixpoint first_occurrences (seen : list string) (lines : list string) : list string :=
  match lines with
  | [] => []
  | line :: lines' =>
      if bool_decide (line ∈ seen)
      then first_occurrences seen lines'
      else line :: first_occurrences (seen ++ [line]) lines'
  end.

(** The retained lines if a line were kept for having [import] as a whole
    token. *)
Definition retained_by_import_token (words : list string) : list string :=
  first_occurrences []
    (map (join " ") (List.filter has_import_token (segments_from [] words))).

(** The characters that [_token_mappings] pads. *)
Definition is_mapped (c : ascii) : bool :=
  existsb (fun kv => String.eqb kv.1 (str1 c)) _token_mappings.

(** The text that [_token_mappings] puts in the place of a character. *)
Definition mapped_value (c : ascii) : string :=
  match List.find (fun kv => String.eqb kv.1 (str1 c)) _token_mappings with
  | Some kv => kv.2
  | None => str1 c
  end.

(** The tokenizer as one pass over the characters of the content: a newline
    or a padded character ends the token being read and is a token itself,
    other whitespace ends the token being read. *)
Fixpoint scan_tokens (word : string) (s : string) : list string :=
  match s with
  | EmptyString => flush word
  | String c s' =>
      if Ascii.eqb c chr_newline then flush word ++ newline :: scan_tokens EmptyString s'
      else if is_space c then flush word ++ scan_tokens EmptyString s'
      else if is_mapped c then flush word ++ str1 c :: scan_tokens EmptyString s'
      else scan_tokens (word +:+ str1 c) s'
  end.

Definition is_word_char (c : ascii) : bool := negb (is_space c) && negb (is_mapped c).

(** The shapes a token of the tokenizer has: the newline token, one padded
    character, or a non-empty run of other characters that are not
    whitespace. *)
Definition token_ok (t : string) : bool :=
  String.eqb t newline
  || match t with
     | String c EmptyString => is_mapped c
     | _ => false
     end
  || (negb (String.eqb t EmptyString) && all_chars is_word_char t).

(** Whether the grammar matches a line. *)
Definition grammar_matches (line : string) : bool :=
  match parseString expression_to_match line with
  | inr _ => true
  | inl _ => false
  end.

(** What a retained line adds to the dependency list under an ignore
    predicate: the captured name of a matched line, unless it is ignored. *)
Definition contributed_dependency (ignored : string → bool) (line : string) : option string :=
  match parseString expression_to_match line with
  | inr parsing_result =>
      let dependency :=
        getattr parsing_result (CoreParsingKeyword.value CoreParsingKeyword.IMPORT_ENTITY_NAME) in
      if ignored dependency then None else Some dependency
  | inl _ => None
  end.

(** The parsing expression without its third operand, the optional
    lookahead. *)
Definition keyword_and_name : ParserElement :=
  And (MatchFirst (Keyword (PythonParsingKeyword.value PythonParsingKeyword.IMPORT))
                  (Keyword (PythonParsingKeyword.value PythonParsingKeyword.FROM)))
      (setResultsName valid_name
         (CoreParsingKeyword.value CoreParsingKeyword.IMPORT_ENTITY_NAME)).

(** A path component: not empty, not [.], and without a slash. *)
Definition is_component (name : string) : bool :=
  PosixPath.is_name name && all_chars (fun c => negb (Ascii.eqb c "/"%char)) name.

(** A file result with another dependency list. *)
Definition with_dependencies (r : FileResult.t) (dependencies : list string) : FileResult.t :=
  {| FileResult.analysis := FileResult.analysis r;
     FileResult.scanned_file_name := FileResult.scanned_file_name r;
     FileResult.relative_file_path_to_analysis := FileResult.relative_file_path_to_analysis r;
     FileResult.absolute_name := FileResult.absolute_name r;
     FileResult.unique_name := FileResult.unique_name r;
     FileResult.display_name := FileResult.display_name r;
     FileResult.module_name := FileResult.module_name r;
     FileResult.scanned_by := FileResult.scanned_by r;
     FileResult.scanned_language := FileResult.scanned_language r;
     FileResult.scanned_tokens := FileResult.scanned_tokens r;
     FileResult.scanned_import_dependencies := dependencies |}.

(** The result that the analysis of a file registers: the fresh result with
    the dependencies that its retained lines contribute. *)
Definition registered_result (h : Heap) (analysis : ref)
    (file_name full_file_path file_content : string) : FileResult.t :=
  with_dependencies (fresh_result h analysis file_name full_file_path file_content)
    (omap (contributed_dependency (ignore_list (h analysis)))
       (source_import_lines_of
          (preprocess_file_content_and_generate_token_list_by_mapping file_content
             _token_mappings))).

(** The absolute path with the given components. *)
Definition absolute_path (components : list string) : string :=
  "/" +:+ join "/" components.

(** * Properties *)

#[local] Arguments String.append : simpl nomatch.

(** ** Basic facts about the heap and the line loop *)

Lemma increment_statistics_same (h : Heap) (a : ref) (k : Statistics.Key) :
  statistics (increment_statistics h a k a) = Statistics.increment (statistics (h a)) k.
Proof. unfold increment_statistics. by rewrite bool_decide_eq_true_2. Qed.

Lemma increment_statistics_other (h : Heap) (a b : ref) (k : Statistics.Key) :
  b ≠ a → increment_statistics h a k b = h b.
Proof. intros Hne. unfold increment_statistics. by rewrite bool_decide_eq_false_2. Qed.

Lemma increment_statistics_config (h : Heap) (a b : ref) (k : Statistics.Key) :
  source_directory (increment_statistics h a k b) = source_directory (h b)
  ∧ ignore_list (increment_statistics h a k b) = ignore_list (h b).
Proof.
  unfold increment_statistics. case_bool_decide as Hab; [|done].
  by rewrite Hab.
Qed.

Lemma import_line_miss (a : ref) (line : string) (r : FileResult.t) (h : Heap) (e : exn) :
  parseString expression_to_match line = inl e →
  import_line a line (r, h)
  = inr (r, increment_statistics h (FileResult.analysis r) Statistics.PARSING_MISSES).
Proof. intros Hp. unfold import_line. by rewrite Hp. Qed.

Lemma import_line_hit (a : ref) (line : string) (r : FileResult.t) (h : Heap)
    (parsing_result : ParseResults) :
  parseString expression_to_match line = inr parsing_result →
  import_line a line (r, h)
  = let h' := increment_statistics h a Statistics.PARSING_HITS in
    let dependency :=
      getattr parsing_result (CoreParsingKeyword.value CoreParsingKeyword.IMPORT_ENTITY_NAME) in
    if ignore_list (h a) dependency then inr (r, h')
    else inr (FileResult.append_dependency r dependency, h').
Proof.
  intros Hp. unfold import_line. rewrite Hp. cbv zeta.
  unfold _is_dependency_in_ignore_list.
  by rewrite (proj2 (increment_statistics_config h a a Statistics.PARSING_HITS)).
Qed.

Lemma import_lines_cons (a : ref) (line : string) (lines : list string)
    (st st' : FileResult.t * Heap) :
  import_line a line st = inr st' →
  import_lines a (line :: lines) st = import_lines a lines st'.
Proof. intros Hl. simpl. by rewrite Hl. Qed.

(** One line never raises, and touches nothing of the result but its
    dependency list. *)
Lemma import_line_returns (a : ref) (line : string) (st : FileResult.t * Heap) :
  ∃ st', import_line a line st = inr st'
         ∧ without_dependencies st'.1 = without_dependencies st.1.
Proof.
  destruct st as [r h].
  destruct (parseString expression_to_match line) as [e|pr] eqn:Hp.
  - rewrite (import_line_miss _ _ _ _ _ Hp). eauto.
  - rewrite (import_line_hit _ _ _ _ _ Hp). cbv zeta.
    destruct (ignore_list (h a) _); eauto.
Qed.

Lemma import_lines_returns (a : ref) (lines : list string) (st : FileResult.t * Heap) :
  ∃ st', import_lines a lines st = inr st'
         ∧ without_dependencies st'.1 = without_dependencies st.1.
Proof.
  revert st. induction lines as [|line lines IH]; intros st.
  - by exists st.
  - destruct (import_line_returns a line st) as (st1 & H1 & Hf1).
    destruct (IH st1) as (st2 & H2 & Hf2).
    exists st2. split; [by rewrite (import_lines_cons _ _ _ _ _ H1)|congruence].
Qed.

Lemma generate_file_result_unfold (self : PythonParser) (h : Heap) (analysis : ref)
    (file_name full_file_path file_content : string) :
  generate_file_result_from_analysis self h analysis file_name full_file_path file_content
  = '(file_result, h') ← _add_imports_to_result self
        (fresh_result h analysis file_name full_file_path file_content) analysis h;
    mret ({| _results := <[FileResult.unique_name file_result := file_result]> (_results self) |},
          h').
Proof. reflexivity. Qed.

(** The file-level call returns, and registers the result that import
    extraction hands back. *)
Lemma generate_file_result_returns (self : PythonParser) (h : Heap) (analysis : ref)
    (file_name full_file_path file_content : string) :
  ∃ file_result h',
    _add_imports_to_result self (fresh_result h analysis file_name full_file_path file_content)
      analysis h = inr (file_result, h')
    ∧ without_dependencies file_result
      = without_dependencies (fresh_result h analysis file_name full_file_path file_content)
    ∧ generate_file_result_from_analysis self h analysis file_name full_file_path file_content
      = inr ({| _results :=
                  <[FileResult.unique_name file_result := file_result]> (_results self) |}, h').
Proof.
  rewrite generate_file_result_unfold. unfold _add_imports_to_result.
  destruct (import_lines_returns analysis
              (source_import_lines_of
                 (FileResult.scanned_tokens
                    (fresh_result h analysis file_name full_file_path file_content)))
              (fresh_result h analysis file_name full_file_path file_content, h))
    as ([fr h'] & Hrun & Hframe).
  exists fr, h'. rewrite Hrun. done.
Qed.

Lemma without_dependencies_fields (r r' : FileResult.t) :
  without_dependencies r' = without_dependencies r →
  FileResult.unique_name r' = FileResult.unique_name r
  ∧ FileResult.scanned_tokens r' = FileResult.scanned_tokens r
  ∧ FileResult.scanned_language r' = FileResult.scanned_language r
  ∧ FileResult.module_name r' = FileResult.module_name r
  ∧ FileResult.analysis r' = FileResult.analysis r.
Proof.
  intros H. repeat split.
  - exact (f_equal FileResult.unique_name H).
  - exact (f_equal FileResult.scanned_tokens H).
  - exact (f_equal FileResult.scanned_language H).
  - exact (f_equal FileResult.module_name H).
  - exact (f_equal FileResult.analysis H).
Qed.

(** ** The grammar *)

Lemma skip_white_spec (prev : option ascii) (s : string) :
  ∃ ws, s = ws +:+ rest (skip_white prev s)
        ∧ all_chars is_pp_white ws = true
        ∧ opt_test is_pp_white (head_char (rest (skip_white prev s))) = false.
Proof.
  revert prev. induction s as [|c s IH]; intros prev; simpl.
  - by exists EmptyString.
  - destruct (is_pp_white c) eqn:Hc.
    + destruct (IH (Some c)) as (ws & Hs & Hws & Hh).
      exists (String c ws). simpl. rewrite Hc, Hws. simpl. by rewrite <- Hs.
    + exists EmptyString. simpl. by rewrite Hc.
Qed.

Lemma take_while_spec (f : ascii → bool) (prev : option ascii) (s : string) :
  s = (take_while f prev s).1 +:+ rest (take_while f prev s).2
  ∧ all_chars f (take_while f prev s).1 = true
  ∧ opt_test f (head_char (rest (take_while f prev s).2)) = false.
Proof.
  revert prev. induction s as [|c s IH]; intros prev; simpl; [done|].
  destruct (f c) eqn:Hc.
  - specialize (IH (Some c)). destruct (take_while f (Some c) s) as [w cur]. simpl in *.
    destruct IH as (Hs & Hw & Hh). rewrite Hc, Hw. simpl. by rewrite <- Hs.
  - simpl. by rewrite Hc.
Qed.

Lemma startswith_advance (kw s : string) (prev : option ascii) :
  startswith kw s = true → s = kw +:+ rest (advance (String.length kw) prev s).
Proof.
  revert s prev. induction kw as [|a kw IH]; intros s prev; simpl.
  - by destruct s.
  - destruct s as [|b s]; [done|]. intros [Hab Hs]%andb_true_iff.
    apply Ascii.eqb_eq in Hab as ->. simpl. f_equal. by apply IH.
Qed.

Lemma Keyword_inv (kw : string) (cur cur' : cursor) (r : ParseResults) :
  Keyword kw cur = inr (r, cur') →
  r = Results [kw] []
  ∧ ∃ ws, rest cur = ws +:+ kw +:+ rest cur' ∧ all_chars is_pp_white ws = true.
Proof.
  unfold Keyword, preParse.
  destruct (skip_white_spec (before cur) (rest cur)) as (ws & Hs & Hws & _).
  destruct (startswith kw _) eqn:Hkw; simpl; [|done].
  destruct (negb _ && negb _); simpl; [|done].
  intros [= <- <-]. split; [done|]. exists ws. split; [|done].
  rewrite <- (startswith_advance _ _ _ Hkw). done.
Qed.


Lemma bind_inr {A B} (m : py A) (k : A → py B) (b : B) :
  m ≫= k = inr b → ∃ a, m = inr a ∧ k a = inr b.
Proof. destruct m as [e|a]; [done|]. intros H. by exists a. Qed.

Lemma Optional_FollowedBy (e : ParserElement) (cur : cursor) :
  Optional (FollowedBy e) cur = inr (no_results, cur).
Proof. unfold Optional, FollowedBy. by destruct (e cur) as [?|[??]]. Qed.

Lemma Word_inv (f : ascii → bool) (cur cur' : cursor) (r : ParseResults) :
  Word f cur = inr (r, cur') →
  ∃ ws w, r = Results [w] [] ∧ w ≠ EmptyString
          ∧ rest cur = ws +:+ w +:+ rest cur'
          ∧ all_chars is_pp_white ws = true
          ∧ all_chars f w = true
          ∧ opt_test f (head_char (rest cur')) = false.
Proof.
  unfold Word, preParse.
  destruct (skip_white_spec (before cur) (rest cur)) as (ws & Hs & Hws & _).
  destruct (take_while_spec f (before (skip_white (before cur) (rest cur)))
              (rest (skip_white (before cur) (rest cur)))) as (Hw & Hall & Hnext).
  destruct (take_while f _ _) as [w cur2]. simpl in *.
  destruct w as [|c w]; [done|]. intros [= <- <-].
  exists ws, (String c w). repeat split; try done. by rewrite <- Hw.
Qed.

Lemma MatchFirst_inv (a b : ParserElement) (cur : cursor) (out : ParseResults * cursor) :
  MatchFirst a b cur = inr out → a cur = inr out ∨ b cur = inr out.
Proof.
  unfold MatchFirst, try_except. destruct (a cur); [|by eauto].
  destruct (b cur); [done|by eauto].
Qed.

Lemma getattr_single (toks : list string) (name value : string) :
  getattr (Results toks [(name, value)]) name = value.
Proof. unfold getattr. simpl. rewrite filter_cons_True by done. done. Qed.

Lemma expression_to_match_inv (line : string) (r : ParseResults) :
  parseString expression_to_match line = inr r →
  ∃ lead kw gap dep tail,
    line = lead +:+ kw +:+ gap +:+ dep +:+ tail
    ∧ (kw = PythonParsingKeyword.value PythonParsingKeyword.IMPORT
       ∨ kw = PythonParsingKeyword.value PythonParsingKeyword.FROM)
    ∧ all_chars is_pp_white lead = true
    ∧ all_chars is_pp_white gap = true
    ∧ dep ≠ EmptyString
    ∧ all_chars in_valid_name dep = true
    ∧ opt_test in_valid_name (head_char tail) = false
    ∧ r = Results [kw; dep]
            [(CoreParsingKeyword.value CoreParsingKeyword.IMPORT_ENTITY_NAME, dep)].
Proof.
  unfold parseString, expression_to_match. intros H.
  apply bind_inr in H as ([r1 c1] & H & [= <-]).
  unfold And at 1 in H.
  apply bind_inr in H as ([ra ca] & Hhead & H).
  rewrite Optional_FollowedBy in H. simpl in H. injection H as <- <-.
  unfold And in Hhead.
  apply bind_inr in Hhead as ([rk ck] & Hkw & H).
  apply bind_inr in H as ([rn cn] & Hname & [= <- <-]).
  unfold setResultsName in Hname.
  apply bind_inr in Hname as ([rw cw] & Hword & [= <- <-]).
  apply Word_inv in Hword as (gap & dep & -> & Hne & Hrest & Hgap & Hdep & Htail).
  assert (∃ kw, (kw = PythonParsingKeyword.value PythonParsingKeyword.IMPORT
                 ∨ kw = PythonParsingKeyword.value PythonParsingKeyword.FROM)
                ∧ Keyword kw (Cursor None line) = inr (rk, ck)) as (kw & Hkw_in & Hk).
  { apply MatchFirst_inv in Hkw as [Hk|Hk]; eauto. }
  apply Keyword_inv in Hk as (-> & lead & Hline & Hlead).
  exists lead, kw, gap, dep, (rest cw). simpl in Hline.
  repeat split; try done. by rewrite Hline, Hrest.
Qed.

Lemma valid_name_not_white (c : ascii) : in_valid_name c = true → is_pp_white c = false.
Proof. destruct c as [[] [] [] [] [] [] [] []]; by vm_compute. Qed.

Lemma take_while_app (f : ascii → bool) (prev : option ascii) (w tail : string) :
  all_chars f w = true → opt_test f (head_char tail) = false →
  (take_while f prev (w +:+ tail)).1 = w ∧ rest (take_while f prev (w +:+ tail)).2 = tail.
Proof.
  revert prev. induction w as [|c w IH]; intros prev; simpl.
  - intros _ Htail. destruct tail as [|c tail]; [done|]. simpl in *. by rewrite Htail.
  - intros [Hc Hw]%andb_true_iff Htail. rewrite Hc.
    destruct (IH (Some c) Hw Htail) as [H1 H2].
    destruct (take_while f (Some c) (w +:+ tail)) as [w' cur]. simpl in *. by subst.
Qed.

Lemma Word_after_blank (prev : option ascii) (w tail : string) :
  w ≠ EmptyString → all_chars in_valid_name w = true →
  opt_test in_valid_name (head_char tail) = false →
  ∃ cur, Word in_valid_name (Cursor prev (" " +:+ w +:+ tail)) = inr (Results [w] [], cur).
Proof.
  intros Hne Hw Htail. unfold Word, preParse. simpl.
  destruct w as [|c w]; [done|]. simpl in Hw. apply andb_true_iff in Hw as [Hc Hw].
  simpl. rewrite (valid_name_not_white c Hc). simpl. rewrite Hc.
  destruct (take_while_app in_valid_name (Some c) w tail Hw Htail) as [H1 H2].
  destruct (take_while in_valid_name (Some c) (w +:+ tail)) as [w' cur]. simpl in *. subst.
  by eexists.
Qed.

Lemma And_inr (a b : ParserElement) (cur c1 c2 : cursor) (ra rb : ParseResults) :
  a cur = inr (ra, c1) → b c1 = inr (rb, c2) → And a b cur = inr (merge_results ra rb, c2).
Proof. intros Ha Hb. unfold And. rewrite Ha. simpl. by rewrite Hb. Qed.

Lemma setResultsName_inr (e : ParserElement) (name : string) (cur c1 : cursor)
    (r : ParseResults) :
  e cur = inr (r, c1) →
  setResultsName e name cur
  = inr (Results (tokens r) (named r ++ map (fun t => (name, t)) (tokens r)), c1).
Proof. intros He. unfold setResultsName. by rewrite He. Qed.

Lemma parse_keyword_name (kw name tail : string) :
  kw = PythonParsingKeyword.value PythonParsingKeyword.IMPORT
  ∨ kw = PythonParsingKeyword.value PythonParsingKeyword.FROM →
  name ≠ EmptyString → all_chars in_valid_name name = true →
  opt_test in_valid_name (head_char tail) = false →
  parseString expression_to_match (kw +:+ " " +:+ name +:+ tail)
  = inr (Results [kw; name]
           [(CoreParsingKeyword.value CoreParsingKeyword.IMPORT_ENTITY_NAME, name)]).
Proof.
  intros Hkw Hne Hname Htail.
  assert (∃ p, MatchFirst (Keyword (PythonParsingKeyword.value PythonParsingKeyword.IMPORT))
                 (Keyword (PythonParsingKeyword.value PythonParsingKeyword.FROM))
                 (Cursor None (kw +:+ " " +:+ name +:+ tail))
               = inr (Results [kw] [], Cursor p (" " +:+ name +:+ tail))) as [p Hk].
  { destruct Hkw as [-> | ->]; eexists; reflexivity. }
  destruct (Word_after_blank p name tail Hne Hname Htail) as [cur Hword].
  unfold parseString, expression_to_match, valid_name.
  erewrite And_inr;
    [ | eapply And_inr; [exact Hk | eapply setResultsName_inr, Hword]
      | apply Optional_FollowedBy ].
  reflexivity.
Qed.

(** ** The entity operations (C6) *)

(** C6: [generate_entity_results_from_analysis] and
    [create_unique_entity_name] raise [NotImplementedError] on every input,
    whatever result type the caller expects: they never return a value, empty
    or not, and the exception is not the [ParseException] of a line that
    does not parse. *)
Theorem C6_entity_operations_raise_not_implemented :
  ∀ (R Entity : Type) (self : PythonParser) (analysis : ref) (entity : Entity),
    @generate_entity_results_from_analysis R self analysis
    = raise (NotImplementedError "currently not implemented in PYTHON_PARSER")
    ∧ @create_unique_entity_name Entity R self entity
      = raise (NotImplementedError "currently not implemented in PYTHON_PARSER")
    ∧ (∀ r : R, @generate_entity_results_from_analysis R self analysis ≠ mret r)
    ∧ (∀ r : R, @create_unique_entity_name Entity R self entity ≠ mret r)
    ∧ (∀ msg : string,
         @generate_entity_results_from_analysis R self analysis ≠ raise (ParseException msg)
         ∧ @create_unique_entity_name Entity R self entity ≠ raise (ParseException msg)).
Proof.
  intros R Entity self analysis entity.
  repeat split; try reflexivity; intros; discriminate.
Qed.

(** ** The registered file result (C8, C9, C10) *)

(** C10: the result that [generate_file_result_from_analysis] registers has
    [scanned_language] equal to [LanguageType.C], which is not the Python
    tag, and [module_name] equal to [None], for every input file. *)
Theorem C10_registered_result_is_tagged_C_without_module :
  ∀ (self : PythonParser) (h : Heap) (analysis : ref)
    (file_name full_file_path file_content : string),
    ∃ (file_result : FileResult.t) (h' : Heap),
      generate_file_result_from_analysis self h analysis file_name full_file_path file_content
      = inr ({| _results :=
                  <[FileResult.unique_name file_result := file_result]> (_results self) |}, h')
      ∧ FileResult.scanned_language file_result = C
      ∧ FileResult.scanned_language file_result ≠ PY
      ∧ FileResult.module_name file_result = None.
Proof.
  intros self h analysis file_name full_file_path file_content.
  destruct (generate_file_result_returns self h analysis file_name full_file_path file_content)
    as (fr & h' & _ & Hframe & Hgen).
  apply without_dependencies_fields in Hframe as (_ & _ & Hlang & Hmod & _).
  exists fr, h'. rewrite Hlang, Hmod. by repeat split.
Qed.

(** C8: the token stream stored in the registered result is the full
    normalized stream of the file content.  Import extraction returns the
    result with the stored stream as it was; the stream it filters is a
    different one, as a file with a comment shows. *)
Theorem C8_stored_tokens_are_the_full_stream :
  (∀ (self : PythonParser) (h : Heap) (analysis : ref)
     (file_name full_file_path file_content : string),
     ∃ (file_result : FileResult.t) (h' : Heap),
       generate_file_result_from_analysis self h analysis file_name full_file_path file_content
       = inr ({| _results :=
                   <[FileResult.unique_name file_result := file_result]> (_results self) |}, h')
       ∧ FileResult.scanned_tokens file_result
         = preprocess_file_content_and_generate_token_list_by_mapping file_content
             _token_mappings)
  ∧ (∀ (self : PythonParser) (result : FileResult.t) (analysis : ref) (h : Heap),
       ∃ (result' : FileResult.t) (h' : Heap),
         _add_imports_to_result self result analysis h = inr (result', h')
         ∧ FileResult.scanned_tokens result' = FileResult.scanned_tokens result)
  ∧ (let stored :=
       preprocess_file_content_and_generate_token_list_by_mapping
         ("# import fake" +:+ newline +:+ "import real" +:+ newline) _token_mappings in
     stored = ["#"; "import"; "fake"; newline; "import"; "real"; newline]
     ∧ filtered_list_no_comments_of stored = [newline; "import"; "real"; newline]).
Proof.
  split; [|split].
  - intros self h analysis file_name full_file_path file_content.
    destruct (generate_file_result_returns self h analysis file_name full_file_path file_content)
      as (fr & h' & _ & Hframe & Hgen).
    apply without_dependencies_fields in Hframe as (_ & Htok & _).
    exists fr, h'. by rewrite Htok.
  - intros self result analysis h. unfold _add_imports_to_result.
    destruct (import_lines_returns analysis
                (source_import_lines_of (FileResult.scanned_tokens result)) (result, h))
      as ([r' h'] & Hrun & Hframe).
    apply without_dependencies_fields in Hframe as (_ & Htok & _).
    by exists r', h'.
  - by vm_compute.
Qed.

(** [replace] on a path that starts with the parent: the prefix goes, and
    nothing else changes when the parent does not occur in the rest. *)
Lemma startswith_app (p s : string) : startswith p (p +:+ s) = true.
Proof. induction p as [|c p IH]; simpl; [done|]. by rewrite Ascii.eqb_refl. Qed.

Lemma replace_from_skip (old new p s : string) :
  replace_from old new (String.length p) (p +:+ s) = replace_from old new 0 s.
Proof. induction p as [|c p IH]; simpl; [by destruct s|exact IH]. Qed.

Lemma replace_prefix (old new s : string) :
  old ≠ EmptyString → replace (old +:+ s) old new = new +:+ replace s old new.
Proof.
  destruct old as [|c old]; [done|]. intros _. unfold replace.
  change (String c old +:+ s) with (String c (old +:+ s)).
  cbn [replace_from]. change (String c (old +:+ s)) with (String c old +:+ s).
  rewrite startswith_app.
  replace (String.length (String c old) - 1) with (String.length old)
    by (simpl; by rewrite Nat.sub_0_r).
  by rewrite replace_from_skip.
Qed.

Lemma replace_absent (old new s : string) :
  old ≠ EmptyString → contains old s = false → replace s old new = s.
Proof.
  destruct old as [|c old]; [done|]. intros _. unfold replace.
  induction s as [|d s IH]; [done|].
  intros [Hhere Hlater]%orb_false_iff.
  cbn [replace_from]. rewrite Hhere. by rewrite (IH Hlater).
Qed.

Lemma relative_path_under_parent (source_directory rel : string) :
  contains (parent_analysis_source_path source_directory) rel = false →
  replace (parent_analysis_source_path source_directory +:+ rel)
    (parent_analysis_source_path source_directory) ""
  = rel.
Proof.
  intros Habsent.
  assert (parent_analysis_source_path source_directory ≠ EmptyString) as Hne.
  { unfold parent_analysis_source_path.
    by destruct (PosixPath.to_string _). }
  rewrite (replace_prefix _ _ _ Hne). simpl. by apply replace_absent.
Qed.

Example unique_name_of_a_file_below_the_source_directory :
  replace "/home/user/project/src/pkg/mod.py"
    (parent_analysis_source_path "/home/user/project/src") ""
  = "src/pkg/mod.py".
Proof. by vm_compute. Qed.

(** [replace] removes every occurrence of the parent, not only the leading
    one. *)
Example unique_name_when_the_parent_occurs_twice :
  replace "/a/b/a/c.py" (parent_analysis_source_path "/a/b") "" = "bc.py".
Proof. by vm_compute. Qed.

(** ** Import extraction line by line (C1, C3, C4) *)

Lemma generate_file_result_on_lines (self : PythonParser) (h h' : Heap) (analysis : ref)
    (file_name full_file_path file_content : string) (lines : list string)
    (file_result : FileResult.t) :
  source_import_lines_of
    (preprocess_file_content_and_generate_token_list_by_mapping file_content _token_mappings)
  = lines →
  import_lines analysis lines
    (fresh_result h analysis file_name full_file_path file_content, h) = inr (file_result, h') →
  generate_file_result_from_analysis self h analysis file_name full_file_path file_content
  = inr ({| _results :=
              <[FileResult.unique_name file_result := file_result]> (_results self) |}, h').
Proof.
  intros <- Hrun. rewrite generate_file_result_unfold. unfold _add_imports_to_result.
  change (FileResult.scanned_tokens
            (fresh_result h analysis file_name full_file_path file_content))
    with (preprocess_file_content_and_generate_token_list_by_mapping file_content
            _token_mappings).
  by rewrite Hrun.
Qed.

Lemma import_line_appends (a : ref) (line dependency : string) (r : FileResult.t) (h : Heap)
    (parsing_result : ParseResults) :
  parseString expression_to_match line = inr parsing_result →
  getattr parsing_result (CoreParsingKeyword.value CoreParsingKeyword.IMPORT_ENTITY_NAME)
  = dependency →
  ignore_list (h a) dependency = false →
  import_line a line (r, h)
  = inr (FileResult.append_dependency r dependency,
         increment_statistics h a Statistics.PARSING_HITS).
Proof.
  intros Hparse <- Hignore. rewrite (import_line_hit _ _ _ _ _ Hparse). cbv zeta.
  by rewrite Hignore.
Qed.

Lemma ignore_list_after_increment (h : Heap) (a b : ref) (k : Statistics.Key) :
  ignore_list (increment_statistics h a k b) = ignore_list (h b).
Proof. apply increment_statistics_config. Qed.

Lemma hits_do_not_touch_misses (h : Heap) (a b : ref) :
  Statistics.parsing_misses (statistics (increment_statistics h a Statistics.PARSING_HITS b))
  = Statistics.parsing_misses (statistics (h b)).
Proof.
  unfold increment_statistics. case_bool_decide as Hab; [|done]. by rewrite Hab.
Qed.

Lemma misses_do_not_touch_hits (h : Heap) (a b : ref) :
  Statistics.parsing_hits (statistics (increment_statistics h a Statistics.PARSING_MISSES b))
  = Statistics.parsing_hits (statistics (h b)).
Proof.
  unfold increment_statistics. case_bool_decide as Hab; [|done]. by rewrite Hab.
Qed.

(** C1: when the grammar matches a line, the line is an [import] or [from]
    keyword, whitespace, and then the extracted dependency, which is the
    longest run of valid-name characters at that place: it is not empty, it
    holds valid-name characters only (so no blank and nothing after one),
    and what follows it does not start with a valid-name character.  For
    [from X import Y] the dependency is [X], whatever [Y] is, and the file
    ["from foo.bar import baz\n"] gets the dependency list [["foo.bar"]]
    (given that the analysis does not ignore it). *)
Theorem C1_dependency_is_the_name_after_the_keyword :
  (∀ (line : string) (parsing_result : ParseResults),
     parseString expression_to_match line = inr parsing_result →
     ∃ lead kw gap tail : string,
       line = lead +:+ kw +:+ gap
              +:+ getattr parsing_result
                    (CoreParsingKeyword.value CoreParsingKeyword.IMPORT_ENTITY_NAME)
              +:+ tail
       ∧ (kw = "import" ∨ kw = "from")
       ∧ all_chars is_pp_white lead = true
       ∧ all_chars is_pp_white gap = true
       ∧ getattr parsing_result
           (CoreParsingKeyword.value CoreParsingKeyword.IMPORT_ENTITY_NAME) ≠ EmptyString
       ∧ all_chars in_valid_name
           (getattr parsing_result
              (CoreParsingKeyword.value CoreParsingKeyword.IMPORT_ENTITY_NAME)) = true
       ∧ opt_test in_valid_name (head_char tail) = false)
  ∧ (∀ module imported : string,
       module ≠ EmptyString → all_chars in_valid_name module = true →
       ∃ parsing_result : ParseResults,
         parseString expression_to_match ("from " +:+ module +:+ " import " +:+ imported)
         = inr parsing_result
         ∧ getattr parsing_result
             (CoreParsingKeyword.value CoreParsingKeyword.IMPORT_ENTITY_NAME) = module)
  ∧ (∀ (self : PythonParser) (h : Heap) (analysis : ref) (file_name full_file_path : string),
       ignore_list (h analysis) "foo.bar" = false →
       ∃ (file_result : FileResult.t) (h' : Heap),
         generate_file_result_from_analysis self h analysis file_name full_file_path
           ("from foo.bar import baz" +:+ newline)
         = inr ({| _results :=
                     <[FileResult.unique_name file_result := file_result]> (_results self) |},
                h')
         ∧ FileResult.scanned_import_dependencies file_result = ["foo.bar"]).
Proof.
  split; [|split].
  - intros line r Hparse.
    apply expression_to_match_inv in Hparse
      as (lead & kw & gap & dep & tail & Hline & Hkw & Hlead & Hgap & Hne & Hdep & Htail & ->).
    rewrite getattr_single. by exists lead, kw, gap, tail.
  - intros module imported Hne Hmod. eexists. split.
    + apply (parse_keyword_name "from" module (" import " +:+ imported)); auto.
    + apply getattr_single.
  - intros self h analysis file_name full_file_path Hignore.
    eexists _, _. split.
    + eapply (generate_file_result_on_lines _ _ _ _ _ _ _ ["from foo.bar import baz"]);
        [by vm_compute|].
      erewrite import_lines_cons; [reflexivity|].
      erewrite import_line_hit by (by vm_compute).
      cbv zeta. change (getattr _ _) with "foo.bar". rewrite Hignore. reflexivity.
    + reflexivity.
Qed.

(** A line on which the grammar succeeds, a [from] line, and an analysis
    that ignores nothing. *)
Lemma C1_witness_import_os :
  (parseString expression_to_match "import os"
   = inr (Results ["import"; "os"] [("import_entity_name", "os")])
   ∧ ∃ lead kw gap tail : string,
       "import os"
       = lead +:+ kw +:+ gap
         +:+ getattr (Results ["import"; "os"] [("import_entity_name", "os")])
               (CoreParsingKeyword.value CoreParsingKeyword.IMPORT_ENTITY_NAME)
         +:+ tail
       ∧ (kw = "import" ∨ kw = "from")
       ∧ all_chars is_pp_white lead = true
       ∧ all_chars is_pp_white gap = true
       ∧ getattr (Results ["import"; "os"] [("import_entity_name", "os")])
           (CoreParsingKeyword.value CoreParsingKeyword.IMPORT_ENTITY_NAME) ≠ EmptyString
       ∧ all_chars in_valid_name
           (getattr (Results ["import"; "os"] [("import_entity_name", "os")])
              (CoreParsingKeyword.value CoreParsingKeyword.IMPORT_ENTITY_NAME)) = true
       ∧ opt_test in_valid_name (head_char tail) = false)
  ∧ (all_chars in_valid_name "foo.bar" = true
     ∧ ∃ parsing_result : ParseResults,
         parseString expression_to_match ("from " +:+ "foo.bar" +:+ " import " +:+ "baz")
         = inr parsing_result
         ∧ getattr parsing_result
             (CoreParsingKeyword.value CoreParsingKeyword.IMPORT_ENTITY_NAME) = "foo.bar")
  ∧ (ignore_containing [] "foo.bar" = false
     ∧ ∃ (file_result : FileResult.t) (h' : Heap),
         generate_file_result_from_analysis __init__
           (fun _ => {| source_directory := "/repo/src";
                        ignore_list := ignore_containing [];
                        statistics := Statistics.Make 0 0 |})
           0 "m.py" "/repo/src/m.py" ("from foo.bar import baz" +:+ newline)
         = inr ({| _results :=
                     <[FileResult.unique_name file_result := file_result]>
                       (_results __init__) |}, h')
         ∧ FileResult.scanned_import_dependencies file_result = ["foo.bar"]).
Proof.
  split; [|split].
  - split; [reflexivity|].
    apply (proj1 C1_dependency_is_the_name_after_the_keyword "import os"). reflexivity.
  - split; [reflexivity|].
    apply (proj1 (proj2 C1_dependency_is_the_name_after_the_keyword) "foo.bar" "baz");
      [discriminate|reflexivity].
  - split; [reflexivity|].
    apply (proj2 (proj2 C1_dependency_is_the_name_after_the_keyword)). reflexivity.
Defined.

(** C3: when the grammar matches a retained line and the extracted
    dependency is in the ignore list, the result is left as it is (nothing
    is appended), the hit counter of the analysis goes up by one, no miss
    counter changes, and the loop goes on with the next line.  The file
    ["import testlib\n"] analysed with an ignore list that contains
    ["testlib"] ends with no dependency, one more hit and no more miss. *)
Theorem C3_ignored_dependency_is_a_hit_without_dependency :
  (∀ (analysis : ref) (line : string) (lines : list string) (result : FileResult.t)
     (h : Heap) (parsing_result : ParseResults),
     parseString expression_to_match line = inr parsing_result →
     ignore_list (h analysis)
       (getattr parsing_result
          (CoreParsingKeyword.value CoreParsingKeyword.IMPORT_ENTITY_NAME)) = true →
     import_line analysis line (result, h)
     = inr (result, increment_statistics h analysis Statistics.PARSING_HITS)
     ∧ import_lines analysis (line :: lines) (result, h)
       = import_lines analysis lines
           (result, increment_statistics h analysis Statistics.PARSING_HITS)
     ∧ Statistics.parsing_hits
         (statistics (increment_statistics h analysis Statistics.PARSING_HITS analysis))
       = S (Statistics.parsing_hits (statistics (h analysis)))
     ∧ (∀ b : ref,
          Statistics.parsing_misses
            (statistics (increment_statistics h analysis Statistics.PARSING_HITS b))
          = Statistics.parsing_misses (statistics (h b))))
  ∧ (∀ (self : PythonParser) (h : Heap) (analysis : ref) (file_name full_file_path : string)
       (entries : list string),
       "testlib" ∈ entries →
       ignore_list (h analysis) = ignore_containing entries →
       ∃ (file_result : FileResult.t) (h' : Heap),
         generate_file_result_from_analysis self h analysis file_name full_file_path
           ("import testlib" +:+ newline)
         = inr ({| _results :=
                     <[FileResult.unique_name file_result := file_result]> (_results self) |},
                h')
         ∧ FileResult.scanned_import_dependencies file_result = []
         ∧ Statistics.parsing_misses (statistics (h' analysis))
           = Statistics.parsing_misses (statistics (h analysis))
         ∧ Statistics.parsing_hits (statistics (h' analysis))
           = S (Statistics.parsing_hits (statistics (h analysis)))).
Proof.
  split.
  - intros analysis line lines result h parsing_result Hparse Hignore.
    assert (import_line analysis line (result, h)
            = inr (result, increment_statistics h analysis Statistics.PARSING_HITS)) as Hline.
    { rewrite (import_line_hit _ _ _ _ _ Hparse). cbv zeta. by rewrite Hignore. }
    split; [done|]. split; [by apply import_lines_cons|]. split.
    + by rewrite increment_statistics_same.
    + intros b. apply hits_do_not_touch_misses.
  - intros self h analysis file_name full_file_path entries Hin Hcfg.
    assert (ignore_list (h analysis) "testlib" = true) as Hignore.
    { rewrite Hcfg. unfold ignore_containing. apply existsb_exists.
      exists "testlib". split; [by apply list_elem_of_In|reflexivity]. }
    eexists _, _. split; [|split; [|split]].
    + eapply (generate_file_result_on_lines _ _ _ _ _ _ _ ["import testlib"]);
        [by vm_compute|].
      erewrite import_lines_cons; [reflexivity|].
      erewrite import_line_hit by (by vm_compute).
      cbv zeta. change (getattr _ _) with "testlib". rewrite Hignore. reflexivity.
    + reflexivity.
    + apply hits_do_not_touch_misses.
    + by rewrite increment_statistics_same.
Qed.

(** An analysis that ignores ["testlib"], and a line and a file that name
    it. *)
Lemma C3_witness_import_testlib :
  let h : Heap := fun _ =>
    {| source_directory := "/repo/src";
       ignore_list := ignore_containing ["testlib"];
       statistics := Statistics.Make 0 0 |} in
  let result := fresh_result h 0 "m.py" "/repo/src/m.py" ("import testlib" +:+ newline) in
  (parseString expression_to_match "import testlib"
   = inr (Results ["import"; "testlib"] [("import_entity_name", "testlib")])
   ∧ ignore_list (h 0) "testlib" = true
   ∧ import_line 0 "import testlib" (result, h)
     = inr (result, increment_statistics h 0 Statistics.PARSING_HITS)
   ∧ Statistics.parsing_hits
       (statistics (increment_statistics h 0 Statistics.PARSING_HITS 0)) = 1
   ∧ Statistics.parsing_misses
       (statistics (increment_statistics h 0 Statistics.PARSING_HITS 0)) = 0)
  ∧ ("testlib" ∈ ["testlib"]
     ∧ ∃ (file_result : FileResult.t) (h' : Heap),
         generate_file_result_from_analysis __init__ h 0 "m.py" "/repo/src/m.py"
           ("import testlib" +:+ newline)
         = inr ({| _results :=
                     <[FileResult.unique_name file_result := file_result]>
                       (_results __init__) |}, h')
         ∧ FileResult.scanned_import_dependencies file_result = []
         ∧ Statistics.parsing_misses (statistics (h' 0)) = 0
         ∧ Statistics.parsing_hits (statistics (h' 0)) = 1).
Proof.
  intros h result. split.
  - destruct (proj1 C3_ignored_dependency_is_a_hit_without_dependency 0 "import testlib" []
                result h (Results ["import"; "testlib"] [("import_entity_name", "testlib")])
                eq_refl eq_refl) as (Hline & _ & Hhits & Hmiss).
    split; [reflexivity|]. split; [reflexivity|].
    split; [exact Hline|]. split; [exact Hhits|]. exact (Hmiss 0).
  - split; [by apply list_elem_of_singleton|].
    apply (proj2 C3_ignored_dependency_is_a_hit_without_dependency __init__ h 0 "m.py"
             "/repo/src/m.py" ["testlib"]); [by apply list_elem_of_singleton|reflexivity].
Defined.

(** C4: when the grammar does not match a retained line, the exception is
    handled in the loop: the result is left as it is, the miss counter of the
    analysis of the result goes up by one, no hit counter changes, and the
    loop goes on with the next line and returns.  The file-level call never
    raises.  For the file ["importxyz broken\n"] the line is retained, the
    grammar fails on it with a [ParseException], and the file ends with no
    dependency and one more miss. *)
Theorem C4_unparsable_line_is_a_miss_and_not_fatal :
  (∀ (analysis : ref) (line : string) (lines : list string) (result : FileResult.t)
     (h : Heap) (some_exception : exn),
     parseString expression_to_match line = inl some_exception →
     import_line analysis line (result, h)
     = inr (result,
            increment_statistics h (FileResult.analysis result) Statistics.PARSING_MISSES)
     ∧ import_lines analysis (line :: lines) (result, h)
       = import_lines analysis lines
           (result,
            increment_statistics h (FileResult.analysis result) Statistics.PARSING_MISSES)
     ∧ (∃ st', import_lines analysis (line :: lines) (result, h) = inr st')
     ∧ Statistics.parsing_misses
         (statistics
            (increment_statistics h (FileResult.analysis result) Statistics.PARSING_MISSES
               (FileResult.analysis result)))
       = S (Statistics.parsing_misses (statistics (h (FileResult.analysis result))))
     ∧ (∀ b : ref,
          Statistics.parsing_hits
            (statistics
               (increment_statistics h (FileResult.analysis result)
                  Statistics.PARSING_MISSES b))
          = Statistics.parsing_hits (statistics (h b))))
  ∧ (∀ (self : PythonParser) (h : Heap) (analysis : ref)
       (file_name full_file_path file_content : string),
       ∃ out, generate_file_result_from_analysis self h analysis file_name full_file_path
                file_content = inr out)
  ∧ (∀ (self : PythonParser) (h : Heap) (analysis : ref) (file_name full_file_path : string),
       (∃ msg, parseString expression_to_match "importxyz broken" = raise (ParseException msg))
       ∧ ∃ (file_result : FileResult.t) (h' : Heap),
           generate_file_result_from_analysis self h analysis file_name full_file_path
             ("importxyz broken" +:+ newline)
           = inr ({| _results :=
                       <[FileResult.unique_name file_result := file_result]> (_results self) |},
                  h')
           ∧ FileResult.scanned_import_dependencies file_result = []
           ∧ Statistics.parsing_misses (statistics (h' analysis))
             = S (Statistics.parsing_misses (statistics (h analysis)))
           ∧ Statistics.parsing_hits (statistics (h' analysis))
             = Statistics.parsing_hits (statistics (h analysis))).
Proof.
  split; [|split].
  - intros analysis line lines result h e Hparse.
    pose proof (import_line_miss analysis line result h e Hparse) as Hline.
    split; [done|]. split; [by apply import_lines_cons|]. split; [|split].
    + rewrite (import_lines_cons _ _ _ _ _ Hline).
      destruct (import_lines_returns analysis lines
                  (result, increment_statistics h (FileResult.analysis result)
                             Statistics.PARSING_MISSES)) as (st' & Hst & _).
      by exists st'.
    + by rewrite increment_statistics_same.
    + intros b. apply misses_do_not_touch_hits.
  - intros self h analysis file_name full_file_path file_content.
    destruct (generate_file_result_returns self h analysis file_name full_file_path file_content)
      as (fr & h' & _ & _ & Hgen).
    eauto.
  - intros self h analysis file_name full_file_path. split; [by eexists|].
    eexists _, _. split; [|split; [|split]].
    + eapply (generate_file_result_on_lines _ _ _ _ _ _ _ ["importxyz broken"]);
        [by vm_compute|].
      erewrite import_lines_cons; [reflexivity|].
      by erewrite import_line_miss by (by vm_compute).
    + reflexivity.
    + by rewrite increment_statistics_same.
    + apply misses_do_not_touch_hits.
Qed.

(** A retained line on which the grammar fails. *)
Lemma C4_witness_importxyz :
  let h : Heap := fun _ =>
    {| source_directory := "/repo/src";
       ignore_list := ignore_containing [];
       statistics := Statistics.Make 0 0 |} in
  let result := fresh_result h 0 "m.py" "/repo/src/m.py" ("importxyz broken" +:+ newline) in
  parseString expression_to_match "importxyz broken"
  = inl (ParseException
         ("Expected {" +:+ str1 chr_dquote +:+ "import" +:+ str1 chr_dquote +:+ " | "
          +:+ str1 chr_dquote +:+ "from" +:+ str1 chr_dquote +:+ "}"))
  ∧ import_line 0 "importxyz broken" (result, h)
    = inr (result, increment_statistics h 0 Statistics.PARSING_MISSES)
  ∧ Statistics.parsing_misses
      (statistics (increment_statistics h 0 Statistics.PARSING_MISSES 0)) = 1.
Proof.
  intros h result.
  destruct (proj1 C4_unparsable_line_is_a_miss_and_not_fatal 0 "importxyz broken" []
              result h
              (ParseException
         ("Expected {" +:+ str1 chr_dquote +:+ "import" +:+ str1 chr_dquote +:+ " | "
          +:+ str1 chr_dquote +:+ "from" +:+ str1 chr_dquote +:+ "}")) eq_refl)
    as (Hline & _ & _ & Hmiss & _).
  split; [reflexivity|]. split; [exact Hline|exact Hmiss].
Defined.

(** ** The retained lines (C2) *)

Lemma append_assoc (a b c : string) : (a +:+ b) +:+ c = a +:+ b +:+ c.
Proof. induction a as [|x a IH]; simpl; [done|]. by rewrite IH. Qed.

Lemma append_nil_r (a : string) : a +:+ EmptyString = a.
Proof. induction a as [|x a IH]; simpl; [done|]. by rewrite IH. Qed.

Lemma drop_last_blank (s : string) : drop_last (s +:+ " ") = s.
Proof.
  induction s as [|c s IH]; [done|].
  simpl. rewrite IH. by destruct s.
Qed.

Lemma buffer_text_snoc (buffer : list string) (word : string) :
  buffer_text (buffer ++ [word]) = (buffer_text buffer +:+ word) +:+ " ".
Proof.
  induction buffer as [|w buffer IH]; simpl; [done|].
  by rewrite IH, !append_assoc.
Qed.

Lemma buffer_text_join (w : string) (buffer : list string) :
  buffer_text (w :: buffer) = join " " (w :: buffer) +:+ " ".
Proof.
  revert w. induction buffer as [|w' buffer IH]; intros w.
  - done.
  - change (buffer_text (w :: w' :: buffer)) with (w +:+ " " +:+ buffer_text (w' :: buffer)).
    rewrite IH. change (join " " (w :: w' :: buffer)) with (w +:+ " " +:+ join " " (w' :: buffer)).
    by rewrite !append_assoc.
Qed.

Lemma drop_last_buffer_text (buffer : list string) :
  drop_last (buffer_text buffer) = join " " buffer.
Proof.
  destruct buffer as [|w buffer]; [done|].
  rewrite buffer_text_join. apply drop_last_blank.
Qed.

Lemma collect_import_lines_spec (words buffer retained : list string) :
  collect_import_lines words (buffer_text buffer) retained
  = retained
    ++ first_occurrences retained
         (List.filter mentions_import (map (join " ") (segments_from buffer words))).
Proof.
  revert buffer retained. induction words as [|word words IH]; intros buffer retained.
  - simpl. by rewrite app_nil_r.
  - simpl. change (String.eqb word (str1 chr_newline)) with (String.eqb word newline).
    destruct (String.eqb word newline) eqn:Hnl; simpl.
    + rewrite drop_last_buffer_text.
      change (negb (String.eqb (join " " buffer) EmptyString)
              && contains "import" (join " " buffer))
        with (mentions_import (join " " buffer)).
      destruct (mentions_import (join " " buffer)) eqn:Hrel; simpl.
      * case_bool_decide as Hin; simpl.
        -- apply (IH []).
        -- rewrite (IH []). by rewrite <- app_assoc.
      * apply (IH []).
    + rewrite <- buffer_text_snoc. apply IH.
Qed.

Lemma first_occurrences_elem (seen lines : list string) (x : string) :
  x ∈ first_occurrences seen lines ↔ x ∈ lines ∧ x ∉ seen.
Proof.
  revert seen. induction lines as [|l lines IH]; intros seen; simpl.
  - rewrite elem_of_nil. by split; [|intros [? _]].
  - case_bool_decide as Hin.
    + rewrite IH, elem_of_cons. split; [by intros [? ?]; auto|].
      by intros [[->|?] ?].
    + rewrite elem_of_cons, IH. rewrite !elem_of_cons, elem_of_app, list_elem_of_singleton.
      split.
      * intros [->|[Hx Hn]]; [by auto|]. split; [by auto|]. by intros ?; apply Hn; left.
      * intros [[->|Hx] Hn]; [by left|].
        destruct (decide (x = l)) as [->|Hne]; [by left|]. right. split; [done|].
        by intros [?|?].
Qed.

Lemma first_occurrences_NoDup (seen lines : list string) :
  NoDup (first_occurrences seen lines).
Proof.
  revert seen. induction lines as [|l lines IH]; intros seen; simpl.
  - constructor.
  - case_bool_decide as Hin; [apply IH|].
    constructor; [|apply IH].
    rewrite first_occurrences_elem. intros [_ Hn]. apply Hn.
    apply elem_of_app. right. by apply list_elem_of_singleton.
Qed.

Lemma first_occurrences_sublist (seen lines : list string) :
  sublist (first_occurrences seen lines) lines.
Proof.
  revert seen. induction lines as [|l lines IH]; intros seen; simpl; [done|].
  case_bool_decide; [by apply sublist_cons|by apply sublist_skip].
Qed.

Lemma List_filter_sublist (f : string → bool) (l : list string) :
  sublist (List.filter f l) l.
Proof.
  induction l as [|x l IH]; simpl; [done|].
  destruct (f x); [by apply sublist_skip|by apply sublist_cons].
Qed.

(** C2 (as amended): the loop retains exactly the logical lines that are
    non-empty and have the text [import] somewhere in them, each once, in
    the order of their first occurrence; the retained list has no duplicate
    and is a subsequence of the logical lines. *)
Theorem C2_retained_lines_mention_import_once_in_order :
  ∀ words : list string,
    collect_import_lines words (PythonParsingKeyword.value PythonParsingKeyword.EMPTY) []
    = first_occurrences [] (List.filter mentions_import (logical_lines words))
    ∧ NoDup (collect_import_lines words (PythonParsingKeyword.value PythonParsingKeyword.EMPTY) [])
    ∧ sublist (collect_import_lines words (PythonParsingKeyword.value PythonParsingKeyword.EMPTY) [])
        (logical_lines words)
    ∧ (∀ line : string,
         (line ∈ collect_import_lines words
                   (PythonParsingKeyword.value PythonParsingKeyword.EMPTY) [])
         ↔ (line ∈ logical_lines words
            ∧ line ≠ EmptyString
            ∧ contains (PythonParsingKeyword.value PythonParsingKeyword.IMPORT) line = true)).
Proof.
  intros words.
  assert (collect_import_lines words (PythonParsingKeyword.value PythonParsingKeyword.EMPTY) []
          = first_occurrences [] (List.filter mentions_import (logical_lines words))) as ->.
  { apply (collect_import_lines_spec words [] []). }
  split; [done|]. split; [apply first_occurrences_NoDup|]. split.
  - etrans; [apply first_occurrences_sublist|]. apply List_filter_sublist.
  - intros line. rewrite first_occurrences_elem, list_elem_of_In, filter_In, <- list_elem_of_In.
    unfold mentions_import. rewrite andb_true_iff, negb_true_iff, String.eqb_neq.
    split; [by intros [(? & ? & ?) _]|]. intros (? & ? & ?). split; [done|]. apply not_elem_of_nil.
Qed.

(** A line that has the text [import] inside a longer token is retained,
    although none of its tokens is the keyword [import]. *)
Lemma C2_counterexample_importxyz :
  collect_import_lines ["importxyz"; "broken"; newline]
    (PythonParsingKeyword.value PythonParsingKeyword.EMPTY) [] = ["importxyz broken"]
  ∧ ("import" ∉ ["importxyz"; "broken"])
  ∧ retained_by_import_token ["importxyz"; "broken"; newline] = [].
Proof.
  split; [by vm_compute|]. split; [|by vm_compute].
  rewrite !elem_of_cons, elem_of_nil. by intros [?|[?|?]].
Qed.

(** ** The tokenizer (C7, C5) *)

Lemma replace_single_cons (k c : ascii) (v s : string) :
  replace (String c s) (str1 k) v
  = (if Ascii.eqb k c then v else str1 c) +:+ replace s (str1 k) v.
Proof.
  unfold replace, str1. simpl. rewrite andb_true_r.
  by destruct (Ascii.eqb k c).
Qed.

Lemma replace_single_app (k : ascii) (v a b : string) :
  replace (a +:+ b) (str1 k) v = replace a (str1 k) v +:+ replace b (str1 k) v.
Proof.
  induction a as [|c a IH]; [done|].
  change (String c a +:+ b) with (String c (a +:+ b)).
  by rewrite !replace_single_cons, IH, append_assoc.
Qed.

Lemma apply_mapping_step (origin mapped : string) (mapping_dict : list (string * string))
    (content : string) :
  apply_mapping content ((origin, mapped) :: mapping_dict)
  = apply_mapping (replace content origin mapped) mapping_dict.
Proof. reflexivity. Qed.

Lemma apply_mapping_app (mapping_dict : list (string * string)) (a b : string) :
  Forall (fun kv => ∃ k, kv.1 = str1 k) mapping_dict →
  apply_mapping (a +:+ b) mapping_dict
  = apply_mapping a mapping_dict +:+ apply_mapping b mapping_dict.
Proof.
  intros Hkeys. revert a b. induction Hkeys as [|[origin mapped] m [k Hk] _ IH]; intros a b.
  - done.
  - simpl in Hk. subst origin.
    by rewrite !apply_mapping_step, replace_single_app, IH.
Qed.

Lemma _token_mappings_single_keys : Forall (fun kv => ∃ k, kv.1 = str1 k) _token_mappings.
Proof. unfold _token_mappings. repeat constructor; by eexists. Qed.

Lemma apply_mapping_char (c : ascii) :
  apply_mapping (str1 c) _token_mappings = mapped_value c.
Proof. destruct c as [[] [] [] [] [] [] [] []]; by vm_compute. Qed.

Lemma apply_mapping_cons (c : ascii) (s : string) :
  apply_mapping (String c s) _token_mappings
  = mapped_value c +:+ apply_mapping s _token_mappings.
Proof.
  change (String c s) with (str1 c +:+ s).
  by rewrite (apply_mapping_app _ _ _ _token_mappings_single_keys), apply_mapping_char.
Qed.

(** A character is left as it is, or put between two whitespace characters
    that are not newlines: the no-break space or a blank before it, a blank
    after it. *)
Lemma mapped_value_shape (c : ascii) :
  (is_mapped c = false ∧ mapped_value c = str1 c)
  ∨ (is_mapped c = true
     ∧ ∃ l : ascii,
         mapped_value c = String l (String c (String chr_blank EmptyString))
         ∧ is_space l = true ∧ Ascii.eqb l chr_newline = false).
Proof.
  destruct c as [[] [] [] [] [] [] [] []];
    first [ by left; vm_compute
          | right; split; [by vm_compute|]; eexists; by vm_compute ].
Qed.

Lemma mapped_not_space (c : ascii) :
  is_mapped c = true → Ascii.eqb c chr_newline = false ∧ is_space c = false.
Proof. destruct c as [[] [] [] [] [] [] [] []]; by vm_compute. Qed.

Lemma newline_is_space (c : ascii) : Ascii.eqb c chr_newline = true → is_space c = true.
Proof. intros ->%Ascii.eqb_eq. done. Qed.

Lemma split_apply_mapping (word s : string) :
  split_preserving_newlines word (apply_mapping s _token_mappings) = scan_tokens word s.
Proof.
  revert word. induction s as [|c s IH]; intros word; [done|].
  rewrite apply_mapping_cons. simpl scan_tokens.
  destruct (mapped_value_shape c) as [[Hm ->]|[Hm (l & -> & Hl & Hlnl)]]; rewrite Hm.
  - simpl. by rewrite !IH.
  - destruct (mapped_not_space c Hm) as [Hnl Hsp].
    rewrite Hnl, Hsp. simpl. rewrite Hlnl, Hl, Hnl, Hsp. simpl. by rewrite IH.
Qed.

Lemma tokenizer_scan (file_content : string) :
  preprocess_file_content_and_generate_token_list_by_mapping file_content _token_mappings
  = scan_tokens EmptyString file_content.
Proof. apply split_apply_mapping. Qed.

Lemma all_chars_snoc (f : ascii → bool) (w : string) (c : ascii) :
  all_chars f w = true → f c = true → all_chars f (w +:+ str1 c) = true.
Proof.
  intros Hw Hc. induction w as [|x w IH]; simpl in *; [by rewrite Hc|].
  apply andb_true_iff in Hw as [-> Hw]. by apply IH.
Qed.

Lemma flush_ok (word : string) :
  all_chars is_word_char word = true → Forall (fun t => token_ok t = true) (flush word).
Proof.
  intros Hw. destruct word as [|c w]; [by constructor|].
  constructor; [|by constructor].
  unfold token_ok. rewrite Hw. simpl. by rewrite orb_true_r.
Qed.

Lemma scan_tokens_ok (word s : string) :
  all_chars is_word_char word = true →
  Forall (fun t => token_ok t = true) (scan_tokens word s).
Proof.
  revert word. induction s as [|c s IH]; intros word Hw; simpl.
  - by apply flush_ok.
  - destruct (Ascii.eqb c chr_newline) eqn:Hnl; [|destruct (is_space c) eqn:Hsp;
      [|destruct (is_mapped c) eqn:Hm]].
    + apply Forall_app. split; [by apply flush_ok|]. constructor; [done|by apply IH].
    + apply Forall_app. split; [by apply flush_ok|by apply IH].
    + apply Forall_app. split; [by apply flush_ok|]. constructor; [|by apply IH].
      unfold token_ok, str1. rewrite Hm. by rewrite orb_true_r.
    + apply IH, all_chars_snoc; [done|]. unfold is_word_char. by rewrite Hsp, Hm.
Qed.

Lemma scan_word (w word tail : string) :
  all_chars is_word_char w = true →
  scan_tokens word (w +:+ tail) = scan_tokens (word +:+ w) tail.
Proof.
  revert word. induction w as [|c w IH]; intros word Hw; simpl.
  - by rewrite append_nil_r.
  - simpl in Hw. apply andb_true_iff in Hw as [Hc Hw].
    unfold is_word_char in Hc. apply andb_true_iff in Hc as [Hsp Hm].
    apply negb_true_iff in Hsp, Hm.
    destruct (Ascii.eqb c chr_newline) eqn:Hnl.
    { apply newline_is_space in Hnl. congruence. }
    rewrite Hsp, Hm, (IH _ Hw). by rewrite append_assoc.
Qed.

(** A token followed by the end of the text or by a blank is read back as
    that token. *)
Lemma scan_token (t tail : string) :
  token_ok t = true →
  tail = EmptyString ∨ (∃ more, tail = String chr_blank more) →
  scan_tokens EmptyString (t +:+ tail) = t :: scan_tokens EmptyString tail.
Proof.
  intros Hok Htail. unfold token_ok in Hok.
  apply orb_true_iff in Hok as [Hok|Hok]; [apply orb_true_iff in Hok as [Hok|Hok]|].
  - apply String.eqb_eq in Hok as ->. reflexivity.
  - destruct t as [|c [|]]; try done.
    destruct (mapped_not_space c Hok) as [Hnl Hsp].
    simpl. by rewrite Hnl, Hsp, Hok.
  - apply andb_true_iff in Hok as [Hne Hw]. rewrite (scan_word _ _ _ Hw). simpl.
    destruct t as [|c t]; [done|].
    destruct Htail as [->|[more ->]]; reflexivity.
Qed.

Lemma scan_join (l : list string) :
  Forall (fun t => token_ok t = true) l →
  scan_tokens EmptyString (join " " l) = l.
Proof.
  induction 1 as [|t l Ht Hl IH]; [done|].
  destruct l as [|t' l].
  - simpl. rewrite <- (append_nil_r t) at 1. rewrite (scan_token t EmptyString Ht); auto.
  - change (join " " (t :: t' :: l)) with (t +:+ String chr_blank (join " " (t' :: l))).
    rewrite (scan_token t _ Ht) by eauto.
    f_equal. exact IH.
Qed.

Lemma filter_comment_tokens_Forall (P : string → Prop) (line_c start_c stop_c : string)
    (mode : comment_mode) (l : list string) :
  Forall P l → Forall P (filter_comment_tokens line_c start_c stop_c mode l).
Proof.
  intros Hl. revert mode. induction Hl as [|t l Ht Hl IH]; intros mode; simpl; [done|].
  destruct mode.
  - destruct (String.eqb t line_c); [apply IH|].
    destruct (String.eqb t start_c); [apply IH|]. by constructor.
  - destruct (String.eqb t (str1 chr_newline)); [by constructor|apply IH].
  - destruct (String.eqb t stop_c); apply IH.
Qed.

(** Tokenizing the text of a token stream gives the stream back. *)
Lemma tokenize_join (l : list string) :
  Forall (fun t => token_ok t = true) l →
  preprocess_file_content_and_generate_token_list_by_mapping (join " " l) _token_mappings = l.
Proof. intros Hl. rewrite tokenizer_scan. by apply scan_join. Qed.

Lemma tokenizer_tokens_ok (text : string) :
  Forall (fun t => token_ok t = true)
    (preprocess_file_content_and_generate_token_list_by_mapping text _token_mappings).
Proof. rewrite tokenizer_scan. by apply scan_tokens_ok. Qed.

(** C7: for every file, the stream that the second tokenization (line 108)
    produces from the output of the comment filter is stable: written out as
    text again and tokenized once more, it is the same token sequence.  It is
    also exactly the sequence of tokens that the filter kept. *)
Theorem C7_tokenizing_the_filtered_stream_again_changes_nothing :
  ∀ file_content : string,
    let scanned_tokens :=
      preprocess_file_content_and_generate_token_list_by_mapping file_content _token_mappings in
    let source_string_no_comments :=
      _filter_source_tokens_without_comments scanned_tokens
        (PythonParsingKeyword.value PythonParsingKeyword.INLINE_COMMENT)
        (PythonParsingKeyword.value PythonParsingKeyword.BLOCK_COMMENT)
        (PythonParsingKeyword.value PythonParsingKeyword.BLOCK_COMMENT) in
    let filtered_list_no_comments :=
      preprocess_file_content_and_generate_token_list_by_mapping source_string_no_comments
        _token_mappings in
    preprocess_file_content_and_generate_token_list_by_mapping
      (join " " filtered_list_no_comments) _token_mappings
    = filtered_list_no_comments
    ∧ filtered_list_no_comments
      = filter_comment_tokens
          (PythonParsingKeyword.value PythonParsingKeyword.INLINE_COMMENT)
          (PythonParsingKeyword.value PythonParsingKeyword.BLOCK_COMMENT)
          (PythonParsingKeyword.value PythonParsingKeyword.BLOCK_COMMENT) InCode scanned_tokens.
Proof.
  intros file_content scanned_tokens source_string_no_comments filtered_list_no_comments.
  split.
  - apply tokenize_join, tokenizer_tokens_ok.
  - apply tokenize_join, filter_comment_tokens_Forall, tokenizer_tokens_ok.
Qed.

(** The tokenizer is idempotent on any text, not only on the output of the
    comment filter. *)
Lemma tokenizer_idempotent (text : string) :
  preprocess_file_content_and_generate_token_list_by_mapping
    (join " " (preprocess_file_content_and_generate_token_list_by_mapping text _token_mappings))
    _token_mappings
  = preprocess_file_content_and_generate_token_list_by_mapping text _token_mappings.
Proof. apply tokenize_join, tokenizer_tokens_ok. Qed.

(** An opening brace gets a no-break space before it and a blank after it;
    both are whitespace, so the brace is a token of its own and tokenizing
    the tokens again gives them back. *)
Example tokens_around_an_opening_brace :
  apply_mapping "a{b" _token_mappings = "a" +:+ str1 chr_nbsp +:+ "{ b"
  ∧ preprocess_file_content_and_generate_token_list_by_mapping "a{b" _token_mappings
    = ["a"; "{"; "b"]
  ∧ preprocess_file_content_and_generate_token_list_by_mapping
      (join " " ["a"; "{"; "b"]) _token_mappings
    = ["a"; "{"; "b"].
Proof. by vm_compute. Qed.

(** ** Comments (C5) *)

(** The block comment marker is never a token: the mapping pads every double
    quote, so the three quotes of a marker become three tokens. *)
Lemma block_comment_marker_is_no_token (file_content : string) :
  PythonParsingKeyword.value PythonParsingKeyword.BLOCK_COMMENT
  ∉ preprocess_file_content_and_generate_token_list_by_mapping file_content _token_mappings.
Proof.
  intros Hin.
  pose proof (tokenizer_tokens_ok file_content) as Hok.
  rewrite Forall_forall in Hok. specialize (Hok _ Hin). by vm_compute in Hok.
Qed.

(** C5: the text of an inline comment whose [#] stands alone is dropped: the
    file ["# import fake\nimport real\n"] has the dependency list
    [["real"]].  The text between two block comment markers is not: no token
    of a file is the marker, and for the file with the lines
    [three quotes], [import fake], [three quotes], [import real] both lines
    reach the grammar and the dependency list is [["fake"; "real"]]. *)
Theorem C5_import_in_a_block_comment_is_extracted :
  ∀ (self : PythonParser) (analysis : ref) (file_name full_file_path source_directory : string)
    (statistics : Statistics.t),
    let h : Heap := fun _ =>
      {| source_directory := source_directory;
         ignore_list := ignore_containing [];
         statistics := statistics |} in
    let quotes := PythonParsingKeyword.value PythonParsingKeyword.BLOCK_COMMENT in
    (∀ file_content : string,
       quotes ∉ preprocess_file_content_and_generate_token_list_by_mapping file_content
                  _token_mappings)
    ∧ (∃ (file_result : FileResult.t) (h' : Heap),
         generate_file_result_from_analysis self h analysis file_name full_file_path
           ("# import fake" +:+ newline +:+ "import real" +:+ newline)
         = inr ({| _results :=
                     <[FileResult.unique_name file_result := file_result]> (_results self) |},
                h')
         ∧ FileResult.scanned_import_dependencies file_result = ["real"])
    ∧ (∃ (file_result : FileResult.t) (h' : Heap),
         source_import_lines_of
           (preprocess_file_content_and_generate_token_list_by_mapping
              (quotes +:+ newline +:+ "import fake" +:+ newline
               +:+ quotes +:+ newline +:+ "import real" +:+ newline) _token_mappings)
         = ["import fake"; "import real"]
         ∧ generate_file_result_from_analysis self h analysis file_name full_file_path
             (quotes +:+ newline +:+ "import fake" +:+ newline
              +:+ quotes +:+ newline +:+ "import real" +:+ newline)
           = inr ({| _results :=
                       <[FileResult.unique_name file_result := file_result]> (_results self) |},
                  h')
         ∧ FileResult.scanned_import_dependencies file_result = ["fake"; "real"]).
Proof.
  intros self analysis file_name full_file_path source_directory statistics h quotes.
  split; [apply block_comment_marker_is_no_token|]. split.
  - eexists _, _. split.
    + eapply (generate_file_result_on_lines _ _ _ _ _ _ _ ["import real"]); [by vm_compute|].
      erewrite import_lines_cons; [reflexivity|].
      erewrite import_line_hit by (by vm_compute). reflexivity.
    + reflexivity.
  - eexists _, _. split; [by vm_compute|]. split.
    + eapply (generate_file_result_on_lines _ _ _ _ _ _ _ ["import fake"; "import real"]);
        [by vm_compute|].
      erewrite import_lines_cons;
        [|by eapply (import_line_appends _ _ "fake"); [by vm_compute|..]].
      erewrite import_lines_cons; [reflexivity|].
      eapply (import_line_appends _ _ "real"); [by vm_compute|done|].
      by rewrite ignore_list_after_increment.
    + reflexivity.
Qed.

(** * Further properties of the code *)

(** ** The import loop as a whole *)

Lemma increment_hits_at (h : Heap) (a b : ref) :
  Statistics.parsing_hits (statistics (increment_statistics h a Statistics.PARSING_HITS b))
  = Statistics.parsing_hits (statistics (h b)) + (if bool_decide (b = a) then 1 else 0).
Proof.
  unfold increment_statistics. case_bool_decide as Hab; simpl; [rewrite Hab|]; lia.
Qed.

Lemma increment_misses_at (h : Heap) (a b : ref) :
  Statistics.parsing_misses (statistics (increment_statistics h a Statistics.PARSING_MISSES b))
  = Statistics.parsing_misses (statistics (h b)) + (if bool_decide (b = a) then 1 else 0).
Proof.
  unfold increment_statistics. case_bool_decide as Hab; simpl; [rewrite Hab|]; lia.
Qed.

Lemma import_lines_run (analysis : ref) (lines : list string) (r : FileResult.t) (h : Heap) :
  ∃ (r' : FileResult.t) (h' : Heap),
    import_lines analysis lines (r, h) = inr (r', h')
    ∧ without_dependencies r' = without_dependencies r
    ∧ FileResult.scanned_import_dependencies r'
      = FileResult.scanned_import_dependencies r
        ++ omap (contributed_dependency (ignore_list (h analysis))) lines
    ∧ (∀ b, source_directory (h' b) = source_directory (h b)
            ∧ ignore_list (h' b) = ignore_list (h b))
    ∧ (∀ b, Statistics.parsing_hits (statistics (h' b))
            = Statistics.parsing_hits (statistics (h b))
              + (if bool_decide (b = analysis)
                 then length (List.filter grammar_matches lines) else 0))
    ∧ (∀ b, Statistics.parsing_misses (statistics (h' b))
            = Statistics.parsing_misses (statistics (h b))
              + (if bool_decide (b = FileResult.analysis r)
                 then length (List.filter (fun l => negb (grammar_matches l)) lines) else 0)).
Proof.
  revert r h. induction lines as [|line lines IH]; intros r h.
  - exists r, h. simpl. rewrite app_nil_r.
    repeat split; try done; intros b; case_bool_decide; simpl; lia.
  - destruct (parseString expression_to_match line) as [e|pr] eqn:Hp.
    + assert (grammar_matches line = false) as Hgm by (unfold grammar_matches; by rewrite Hp).
      assert (contributed_dependency (ignore_list (h analysis)) line = None) as Hc
        by (unfold contributed_dependency; by rewrite Hp).
      destruct (IH r (increment_statistics h (FileResult.analysis r) Statistics.PARSING_MISSES))
        as (r' & h' & Hrun & Hframe & Hdeps & Hcfg & Hhits & Hmiss).
      exists r', h'.
      rewrite (import_lines_cons _ _ _ _ _ (import_line_miss _ _ _ _ _ Hp)), Hrun.
      rewrite ignore_list_after_increment in Hdeps.
      simpl omap. simpl List.filter. rewrite Hgm, Hc. simpl.
      split; [done|]. split; [done|]. split; [done|]. split; [|split].
      * intros b. destruct (Hcfg b) as [-> ->]. apply increment_statistics_config.
      * intros b. rewrite Hhits, misses_do_not_touch_hits. done.
      * intros b. rewrite Hmiss, increment_misses_at. case_bool_decide; simpl; lia.
    + set (dep := getattr pr (CoreParsingKeyword.value CoreParsingKeyword.IMPORT_ENTITY_NAME)).
      assert (grammar_matches line = true) as Hgm by (unfold grammar_matches; by rewrite Hp).
      pose proof (import_line_hit analysis line r h pr Hp) as Hline. cbv zeta in Hline.
      fold dep in Hline.
      assert (contributed_dependency (ignore_list (h analysis)) line
              = if ignore_list (h analysis) dep then None else Some dep) as Hc
        by (unfold contributed_dependency; by rewrite Hp).
      simpl omap. simpl List.filter. rewrite Hgm, Hc.
      destruct (ignore_list (h analysis) dep) eqn:Hign.
      * destruct (IH r (increment_statistics h analysis Statistics.PARSING_HITS))
          as (r' & h' & Hrun & Hframe & Hdeps & Hcfg & Hhits & Hmiss).
        exists r', h'. rewrite (import_lines_cons _ _ _ _ _ Hline), Hrun.
        rewrite ignore_list_after_increment in Hdeps. simpl.
        split; [done|]. split; [done|]. split; [done|]. split; [|split].
        -- intros b. destruct (Hcfg b) as [-> ->]. apply increment_statistics_config.
        -- intros b. rewrite Hhits, increment_hits_at. case_bool_decide; simpl; lia.
        -- intros b. rewrite Hmiss, hits_do_not_touch_misses. done.
      * destruct (IH (FileResult.append_dependency r dep)
                    (increment_statistics h analysis Statistics.PARSING_HITS))
          as (r' & h' & Hrun & Hframe & Hdeps & Hcfg & Hhits & Hmiss).
        exists r', h'. rewrite (import_lines_cons _ _ _ _ _ Hline), Hrun.
        rewrite ignore_list_after_increment in Hdeps. simpl.
        split; [done|]. split; [done|]. split; [|split; [|split]].
        -- rewrite Hdeps. simpl. by rewrite <- app_assoc.
        -- intros b. destruct (Hcfg b) as [-> ->]. apply increment_statistics_config.
        -- intros b. rewrite Hhits, increment_hits_at. case_bool_decide; simpl; lia.
        -- intros b. rewrite Hmiss, hits_do_not_touch_misses. done.
Qed.

Lemma contributed_length (ignored : string → bool) (lines : list string) :
  length (omap (contributed_dependency ignored) lines)
  ≤ length (List.filter grammar_matches lines).
Proof.
  induction lines as [|line lines IH]; simpl; [done|].
  assert (grammar_matches line = false ∧ contributed_dependency ignored line = None
          ∨ grammar_matches line = true) as [[-> ->]| ->].
  { unfold grammar_matches, contributed_dependency.
    destruct (parseString expression_to_match line); auto. }
  - done.
  - destruct (contributed_dependency ignored line); simpl;
      change (list_omap _ _ (contributed_dependency ignored) lines)
        with (omap (contributed_dependency ignored) lines); lia.
Qed.

Lemma matches_or_not_length (lines : list string) :
  length (List.filter grammar_matches lines)
  + length (List.filter (fun l => negb (grammar_matches l)) lines)
  = length lines.
Proof.
  induction lines as [|line lines IH]; simpl; [done|].
  destruct (grammar_matches line); simpl; lia.
Qed.

Lemma contributed_dependency_Some (ignored : string → bool) (line dependency : string) :
  contributed_dependency ignored line = Some dependency →
  ignored dependency = false
  ∧ dependency ≠ EmptyString
  ∧ all_chars in_valid_name dependency = true.
Proof.
  unfold contributed_dependency.
  destruct (parseString expression_to_match line) as [e|pr] eqn:Hp; [done|].
  apply expression_to_match_inv in Hp
    as (lead & kw & gap & dep & tail & _ & _ & _ & _ & Hne & Hdep & _ & ->).
  rewrite getattr_single. cbv zeta.
  destruct (ignored dep) eqn:Hign; [done|]. by intros [= <-].
Qed.

(** X1: import extraction only appends to the dependency list of the result
    it is given: the list it returns is the old list followed by the
    captured name of every retained line that the grammar matches and the
    ignore list lets through, one per line, in the order of the lines. *)
Theorem X1_add_imports_appends_the_unignored_names_in_line_order :
  ∀ (self : PythonParser) (result : FileResult.t) (analysis : ref) (h : Heap),
    ∃ (result' : FileResult.t) (h' : Heap),
      _add_imports_to_result self result analysis h = inr (result', h')
      ∧ FileResult.scanned_import_dependencies result'
        = FileResult.scanned_import_dependencies result
          ++ omap (contributed_dependency (ignore_list (h analysis)))
               (source_import_lines_of (FileResult.scanned_tokens result)).
Proof.
  intros self result analysis h. unfold _add_imports_to_result.
  destruct (import_lines_run analysis
              (source_import_lines_of (FileResult.scanned_tokens result)) result h)
    as (r' & h' & Hrun & _ & Hdeps & _).
  by exists r', h'.
Qed.

(** X2: whatever the tokens of the result are, a dependency that import
    extraction adds is not in the ignore list, is not empty and consists of
    valid-name characters only. *)
Theorem X2_added_dependencies_are_unignored_valid_names :
  ∀ (self : PythonParser) (result : FileResult.t) (analysis : ref) (h : Heap),
    ∃ (result' : FileResult.t) (h' : Heap),
      _add_imports_to_result self result analysis h = inr (result', h')
      ∧ ∀ dependency : string,
          dependency ∈ FileResult.scanned_import_dependencies result' →
          dependency ∈ FileResult.scanned_import_dependencies result
          ∨ (ignore_list (h analysis) dependency = false
             ∧ dependency ≠ EmptyString
             ∧ all_chars in_valid_name dependency = true).
Proof.
  intros self result analysis h. unfold _add_imports_to_result.
  destruct (import_lines_run analysis
              (source_import_lines_of (FileResult.scanned_tokens result)) result h)
    as (r' & h' & Hrun & _ & Hdeps & _).
  exists r', h'. split; [done|]. intros d. rewrite Hdeps, elem_of_app.
  intros [Hold|Hnew]; [by left|right].
  apply list_elem_of_omap in Hnew as (line & _ & Hline).
  by apply contributed_dependency_Some in Hline.
Qed.

(** X3: import extraction counts every hit on the analysis it is given and
    every miss on the analysis stored in the result: the first gains one hit
    per retained line that the grammar matches, the second one miss per
    retained line that it does not match, and no other counter of any
    analysis changes. *)
Theorem X3_hits_go_to_the_argument_and_misses_to_the_result_analysis :
  ∀ (self : PythonParser) (result : FileResult.t) (analysis : ref) (h : Heap),
    ∃ (result' : FileResult.t) (h' : Heap),
      _add_imports_to_result self result analysis h = inr (result', h')
      ∧ Statistics.parsing_hits (statistics (h' analysis))
        = Statistics.parsing_hits (statistics (h analysis))
          + length (List.filter grammar_matches
                      (source_import_lines_of (FileResult.scanned_tokens result)))
      ∧ Statistics.parsing_misses (statistics (h' (FileResult.analysis result)))
        = Statistics.parsing_misses (statistics (h (FileResult.analysis result)))
          + length (List.filter (fun line => negb (grammar_matches line))
                      (source_import_lines_of (FileResult.scanned_tokens result)))
      ∧ (∀ b : ref, b ≠ analysis →
           Statistics.parsing_hits (statistics (h' b))
           = Statistics.parsing_hits (statistics (h b)))
      ∧ (∀ b : ref, b ≠ FileResult.analysis result →
           Statistics.parsing_misses (statistics (h' b))
           = Statistics.parsing_misses (statistics (h b))).
Proof.
  intros self result analysis h. unfold _add_imports_to_result.
  destruct (import_lines_run analysis
              (source_import_lines_of (FileResult.scanned_tokens result)) result h)
    as (r' & h' & Hrun & _ & _ & _ & Hhits & Hmiss).
  exists r', h'. split; [done|]. split; [|split; [|split]].
  - rewrite Hhits. by rewrite bool_decide_eq_true_2.
  - rewrite Hmiss. by rewrite bool_decide_eq_true_2.
  - intros b Hb. rewrite Hhits, bool_decide_eq_false_2 by done. lia.
  - intros b Hb. rewrite Hmiss, bool_decide_eq_false_2 by done. lia.
Qed.

(** X4: analysing a file counts each of its retained lines exactly once, as
    a hit or as a miss, on the analysis of the call; the registered result
    has at most as many dependencies as hits were counted, and neither
    counter goes down. *)
Theorem X4_every_retained_line_of_a_file_is_counted_once :
  ∀ (self : PythonParser) (h : Heap) (analysis : ref)
    (file_name full_file_path file_content : string),
    ∃ (file_result : FileResult.t) (h' : Heap),
      generate_file_result_from_analysis self h analysis file_name full_file_path file_content
      = inr ({| _results :=
                  <[FileResult.unique_name file_result := file_result]> (_results self) |}, h')
      ∧ Statistics.parsing_hits (statistics (h' analysis))
        + Statistics.parsing_misses (statistics (h' analysis))
        = Statistics.parsing_hits (statistics (h analysis))
          + Statistics.parsing_misses (statistics (h analysis))
          + length (source_import_lines_of
                      (preprocess_file_content_and_generate_token_list_by_mapping
                         file_content _token_mappings))
      ∧ Statistics.parsing_hits (statistics (h analysis))
        + length (FileResult.scanned_import_dependencies file_result)
        ≤ Statistics.parsing_hits (statistics (h' analysis))
      ∧ Statistics.parsing_misses (statistics (h analysis))
        ≤ Statistics.parsing_misses (statistics (h' analysis)).
Proof.
  intros self h analysis file_name full_file_path file_content.
  set (lines := source_import_lines_of
                  (preprocess_file_content_and_generate_token_list_by_mapping
                     file_content _token_mappings)).
  destruct (import_lines_run analysis lines
              (fresh_result h analysis file_name full_file_path file_content) h)
    as (r' & h' & Hrun & _ & Hdeps & _ & Hhits & Hmiss).
  exists r', h'. split; [by apply (generate_file_result_on_lines _ _ _ _ _ _ _ lines)|].
  specialize (Hhits analysis). specialize (Hmiss analysis).
  change (FileResult.analysis (fresh_result h analysis file_name full_file_path file_content))
    with analysis in Hmiss.
  rewrite bool_decide_eq_true_2 in Hhits, Hmiss by done.
  pose proof (matches_or_not_length lines) as Hall.
  pose proof (contributed_length (ignore_list (h analysis)) lines) as Hlen.
  rewrite Hdeps.
  change (FileResult.scanned_import_dependencies
            (fresh_result h analysis file_name full_file_path file_content))
    with (@nil string).
  rewrite app_nil_l. lia.
Qed.

(** X5: analysing a file changes neither the source directory nor the ignore
    list of any analysis, and leaves every analysis other than the one of
    the call as it was, statistics included. *)
Theorem X5_file_analysis_touches_only_the_counters_of_its_analysis :
  ∀ (self : PythonParser) (h : Heap) (analysis : ref)
    (file_name full_file_path file_content : string),
    ∃ (self' : PythonParser) (h' : Heap),
      generate_file_result_from_analysis self h analysis file_name full_file_path file_content
      = inr (self', h')
      ∧ (∀ b : ref, source_directory (h' b) = source_directory (h b)
                    ∧ ignore_list (h' b) = ignore_list (h b))
      ∧ (∀ b : ref, b ≠ analysis → statistics (h' b) = statistics (h b)).
Proof.
  intros self h analysis file_name full_file_path file_content.
  set (lines := source_import_lines_of
                  (preprocess_file_content_and_generate_token_list_by_mapping
                     file_content _token_mappings)).
  destruct (import_lines_run analysis lines
              (fresh_result h analysis file_name full_file_path file_content) h)
    as (r' & h' & Hrun & _ & _ & Hcfg & Hhits & Hmiss).
  eexists _, h'. split; [by apply (generate_file_result_on_lines _ _ _ _ _ _ _ lines)|].
  split; [done|]. intros b Hb.
  specialize (Hhits b). specialize (Hmiss b).
  change (FileResult.analysis (fresh_result h analysis file_name full_file_path file_content))
    with analysis in Hmiss.
  rewrite bool_decide_eq_false_2 in Hhits, Hmiss by done.
  destruct (statistics (h' b)), (statistics (h b)). cbn [Statistics.parsing_hits Statistics.parsing_misses] in Hhits, Hmiss. f_equal; lia.
Qed.

(** X6: registering the result of a file keeps the results of all files
    registered under other names, and the names registered afterwards are
    the earlier ones and the unique name of the file. *)
Theorem X6_registration_keeps_the_results_of_other_files :
  ∀ (self : PythonParser) (h : Heap) (analysis : ref)
    (file_name full_file_path file_content : string),
    ∃ (self' : PythonParser) (h' : Heap),
      generate_file_result_from_analysis self h analysis file_name full_file_path file_content
      = inr (self', h')
      ∧ (∀ name : string,
           name ≠ replace full_file_path
                    (parent_analysis_source_path (source_directory (h analysis))) "" →
           _results self' !! name = _results self !! name)
      ∧ dom (_results self')
        = {[ replace full_file_path
               (parent_analysis_source_path (source_directory (h analysis))) "" ]}
          ∪ dom (_results self).
Proof.
  intros self h analysis file_name full_file_path file_content.
  destruct (generate_file_result_returns self h analysis file_name full_file_path file_content)
    as (fr & h' & _ & Hframe & Hgen).
  apply without_dependencies_fields in Hframe as (Hname & _).
  eexists _, h'. split; [exact Hgen|]. cbn [_results]. rewrite Hname.
  change (FileResult.unique_name
            (fresh_result h analysis file_name full_file_path file_content))
    with (replace full_file_path
            (parent_analysis_source_path (source_directory (h analysis))) "").
  split.
  - intros name Hne. by rewrite lookup_insert_ne.
  - apply dom_insert_L.
Qed.

(** ** The line loop *)

Lemma collect_without_newline (tail : list string) (line : string) (retained : list string) :
  newline ∉ tail → collect_import_lines tail line retained = retained.
Proof.
  revert line. induction tail as [|word tail IH]; intros line Hno; [done|].
  apply not_elem_of_cons in Hno as [Hne Hno]. simpl.
  change (str1 chr_newline) with newline.
  rewrite (proj2 (String.eqb_neq word newline)) by congruence. simpl. by apply IH.
Qed.

Lemma collect_app_no_newline (words tail : list string) (line : string)
    (retained : list string) :
  newline ∉ tail →
  collect_import_lines (words ++ tail) line retained
  = collect_import_lines words line retained.
Proof.
  intros Hno. revert line retained.
  induction words as [|word words IH]; intros line retained.
  - by apply collect_without_newline.
  - simpl. destruct (negb (String.eqb word _)); apply IH.
Qed.

(** X7: tokens after the last newline token are never retained: appending
    tokens without a newline to a stream changes nothing, so the last line
    of a stream that does not end with a newline token is lost, even when it
    is an import. *)
Theorem X7_tokens_after_the_last_newline_are_dropped :
  ∀ words tail : list string,
    newline ∉ tail →
    collect_import_lines (words ++ tail)
      (PythonParsingKeyword.value PythonParsingKeyword.EMPTY) []
    = collect_import_lines words (PythonParsingKeyword.value PythonParsingKeyword.EMPTY) [].
Proof. intros words tail Hno. by apply collect_app_no_newline. Qed.

Lemma X7_witness_unterminated_import :
  (newline ∉ ["import"; "b"])
  ∧ collect_import_lines (["import"; "a"; newline] ++ ["import"; "b"])
      (PythonParsingKeyword.value PythonParsingKeyword.EMPTY) []
    = ["import a"].
Proof.
  assert (newline ∉ ["import"; "b"]) as Hno.
  { rewrite !not_elem_of_cons. repeat split; [discriminate..|apply not_elem_of_nil]. }
  split; [exact Hno|].
  rewrite (X7_tokens_after_the_last_newline_are_dropped ["import"; "a"; newline]
             ["import"; "b"] Hno).
  reflexivity.
Defined.

(** X8: the line loop can be run in pieces: after a newline token the line
    buffer is empty again, so the retained lines of a stream are those of
    its part up to a newline token, extended by running the loop on the rest
    with that list as the lines already retained. *)
Theorem X8_line_loop_resumes_after_a_newline :
  ∀ (before after : list string) (line : string) (retained : list string),
    collect_import_lines (before ++ newline :: after) line retained
    = collect_import_lines after (PythonParsingKeyword.value PythonParsingKeyword.EMPTY)
        (collect_import_lines (before ++ [newline]) line retained).
Proof.
  intros before after. induction before as [|word before IH]; intros line retained.
  - reflexivity.
  - simpl. destruct (negb (String.eqb word _)); apply IH.
Qed.

Lemma startswith_before_blank (p a b : string) :
  char_in chr_blank p = false →
  startswith p (a +:+ String chr_blank b) = true → startswith p a = true.
Proof.
  revert a. induction p as [|c p IH]; intros a Hp; [done|].
  simpl in Hp. apply orb_false_iff in Hp as [Hc Hp].
  destruct a as [|d a]; simpl.
  - intros [Heq _]%andb_true_iff. apply Ascii.eqb_eq in Heq as ->.
    by vm_compute in Hc.
  - intros [-> Hrest]%andb_true_iff. simpl. by apply (IH a).
Qed.

Lemma startswith_extend (q x y : string) :
  startswith q x = true → startswith q (x +:+ y) = true.
Proof.
  revert x. induction q as [|e q IH]; intros x; [done|].
  destruct x as [|f x]; [done|]. simpl.
  intros [-> Hq]%andb_true_iff. simpl. by apply IH.
Qed.

Lemma contains_across_blank (p a b : string) :
  p ≠ EmptyString → char_in chr_blank p = false →
  contains p (a +:+ String chr_blank b) = contains p a || contains p b.
Proof.
  intros Hne Hp. destruct p as [|c p]; [done|].
  assert (startswith (String c p) (String chr_blank b) = false) as Hblank.
  { change (char_in chr_blank (String c p))
      with (Ascii.eqb chr_blank c || char_in chr_blank p) in Hp.
    apply orb_false_iff in Hp as [Hc _].
    change (startswith (String c p) (String chr_blank b))
      with (Ascii.eqb c chr_blank && startswith p b).
    by rewrite Ascii.eqb_sym, Hc. }
  induction a as [|d a IH].
  - change (EmptyString +:+ String chr_blank b) with (String chr_blank b).
    cbn [contains]. by rewrite Hblank.
  - change (String d a +:+ String chr_blank b) with (String d (a +:+ String chr_blank b)).
    cbn [contains]. rewrite IH.
    destruct (startswith (String c p) (String d (a +:+ String chr_blank b))) eqn:Hs.
    + change (String d (a +:+ String chr_blank b))
        with (String d a +:+ String chr_blank b) in Hs.
      by rewrite (startswith_before_blank _ _ _ Hp Hs).
    + destruct (startswith (String c p) (String d a)) eqn:Hs'; [|done].
      apply (startswith_extend _ _ (String chr_blank b)) in Hs'.
      change (String d a +:+ String chr_blank b)
        with (String d (a +:+ String chr_blank b)) in Hs'.
      congruence.
Qed.

Lemma contains_join_blank (p : string) (segment : list string) :
  p ≠ EmptyString → char_in chr_blank p = false →
  contains p (join " " segment) = existsb (contains p) segment.
Proof.
  intros Hne Hp. induction segment as [|t segment IH].
  - destruct p; [done|reflexivity].
  - destruct segment as [|t' segment].
    + simpl. by rewrite orb_false_r.
    + change (join " " (t :: t' :: segment))
        with (t +:+ String chr_blank (join " " (t' :: segment))).
      rewrite (contains_across_blank _ _ _ Hne Hp), IH. reflexivity.
Qed.

Lemma contains_nonempty (p s : string) :
  p ≠ EmptyString → contains p s = true → s ≠ EmptyString.
Proof. intros Hne Hc ->. by destruct p. Qed.

(** X9: whether a line is retained depends on its tokens one by one: the
    test of line 120 holds exactly when one of the tokens of the line has
    the text [import] in it; the test for the empty line never decides
    anything.  So the retained lines are the first occurrences of the
    logical lines with such a token. *)
Theorem X9_a_line_is_kept_iff_a_token_mentions_import :
  (∀ segment : list string,
     mentions_import (join " " segment)
     = existsb (contains (PythonParsingKeyword.value PythonParsingKeyword.IMPORT)) segment)
  ∧ (∀ words : list string,
       collect_import_lines words (PythonParsingKeyword.value PythonParsingKeyword.EMPTY) []
       = first_occurrences []
           (map (join " ")
              (List.filter
                 (existsb (contains (PythonParsingKeyword.value PythonParsingKeyword.IMPORT)))
                 (segments_from [] words)))).
Proof.
  assert (∀ segment : list string,
            mentions_import (join " " segment)
            = existsb (contains (PythonParsingKeyword.value PythonParsingKeyword.IMPORT))
                segment) as Hseg.
  { intros segment. unfold mentions_import.
    change (contains "import") with (contains (PythonParsingKeyword.value
                                                 PythonParsingKeyword.IMPORT)).
    rewrite <- (contains_join_blank _ segment) by done.
    destruct (contains _ (join " " segment)) eqn:Hc; [|by rewrite andb_false_r].
    apply contains_nonempty in Hc; [|done].
    by rewrite (proj2 (String.eqb_neq _ _) Hc). }
  split; [exact Hseg|]. intros words.
  change (PythonParsingKeyword.value PythonParsingKeyword.EMPTY) with (buffer_text []).
  rewrite (collect_import_lines_spec words [] []). rewrite app_nil_l. f_equal.
  generalize (segments_from [] words). intros segments.
  induction segments as [|segment segments IH]; [done|].
  simpl. rewrite Hseg. destruct (existsb _ segment); simpl; by rewrite IH.
Qed.

(** ** The grammar *)

Lemma And_raises (a b : ParserElement) (cur : cursor) (e : exn) :
  a cur = inl e → And a b cur = inl e.
Proof. intros Ha. unfold And. by rewrite Ha. Qed.

(** X10: the keywords are whole words: a line in which [import] or [from]
    is directly followed by a letter, a digit, [_] or [$] is not matched,
    and import extraction counts it as a miss. *)
Theorem X10_keyword_glued_to_an_identifier_is_a_miss :
  ∀ (c : ascii) (more : string),
    is_ident_char c = true →
    grammar_matches ("import" +:+ String c more) = false
    ∧ grammar_matches ("from" +:+ String c more) = false
    ∧ ∀ (analysis : ref) (result : FileResult.t) (h : Heap),
        import_line analysis ("import" +:+ String c more) (result, h)
        = inr (result,
               increment_statistics h (FileResult.analysis result) Statistics.PARSING_MISSES).
Proof.
  intros c more Hc.
  assert (∃ e, parseString expression_to_match ("import" +:+ String c more) = inl e)
    as [e He].
  { unfold parseString, expression_to_match. eexists.
    erewrite And_raises; [reflexivity|]. apply And_raises.
    unfold MatchFirst, Keyword, preParse. simpl. rewrite Hc. reflexivity. }
  assert (∃ e, parseString expression_to_match ("from" +:+ String c more) = inl e)
    as [e' He'].
  { unfold parseString, expression_to_match. eexists.
    erewrite And_raises; [reflexivity|]. apply And_raises.
    unfold MatchFirst, Keyword, preParse. simpl. rewrite Hc. reflexivity. }
  split; [|split].
  - unfold grammar_matches. by rewrite He.
  - unfold grammar_matches. by rewrite He'.
  - intros analysis result h. by apply (import_line_miss _ _ _ _ e).
Qed.

Lemma X10_witness_importlib :
  is_ident_char "l" = true
  ∧ grammar_matches ("import" +:+ String "l" "ib x") = false
  ∧ grammar_matches ("from" +:+ String "l" "ib x") = false.
Proof.
  split; [reflexivity|].
  destruct (X10_keyword_glued_to_an_identifier_is_a_miss "l" "ib x" eq_refl) as (H1 & H2 & _).
  split; [exact H1|exact H2].
Defined.

Lemma merge_no_results (r : ParseResults) : merge_results r no_results = r.
Proof. destruct r as [toks names]. unfold merge_results. simpl. by rewrite !app_nil_r. Qed.

(** X11: the third operand of the parsing expression, the optional lookahead
    for [import], never decides anything: the expression matches the same
    lines with the same results as the keyword and the name alone.  A [from]
    line is matched whether or not an [import] follows the name. *)
Theorem X11_the_optional_lookahead_changes_no_result :
  ∀ line : string,
    parseString expression_to_match line = parseString keyword_and_name line.
Proof.
  intros line. unfold parseString, expression_to_match.
  fold keyword_and_name. unfold And at 1.
  destruct (keyword_and_name (Cursor None line)) as [e|[r cur]]; [done|].
  simpl. rewrite Optional_FollowedBy. simpl. by rewrite merge_no_results.
Qed.

(** X12: the dependency list is not a set: two different lines that name
    the same module, [import X] and [from X import Y], both add [X], so the
    list ends with [X] twice (for a name that is not ignored). *)
Theorem X12_two_lines_for_one_module_add_it_twice :
  ∀ (analysis : ref) (result : FileResult.t) (h : Heap) (module imported : string),
    module ≠ EmptyString →
    all_chars in_valid_name module = true →
    ignore_list (h analysis) module = false →
    ∃ (result' : FileResult.t) (h' : Heap),
      import_lines analysis
        ["import " +:+ module; "from " +:+ module +:+ " import " +:+ imported] (result, h)
      = inr (result', h')
      ∧ FileResult.scanned_import_dependencies result'
        = FileResult.scanned_import_dependencies result ++ [module; module]
      ∧ "import " +:+ module ≠ "from " +:+ module +:+ " import " +:+ imported.
Proof.
  intros analysis result h module imported Hne Hvalid Hign.
  destruct (import_lines_run analysis
              ["import " +:+ module; "from " +:+ module +:+ " import " +:+ imported] result h)
    as (r' & h' & Hrun & _ & Hdeps & _).
  exists r', h'. split; [done|]. split; [|discriminate].
  rewrite Hdeps. f_equal.
  assert (contributed_dependency (ignore_list (h analysis)) ("import " +:+ module)
          = Some module) as H1.
  { unfold contributed_dependency.
    pose proof (parse_keyword_name "import" module EmptyString (or_introl eq_refl)
                  Hne Hvalid eq_refl) as Hp.
    rewrite append_nil_r in Hp. change ("import" +:+ " " +:+ module)
      with ("import " +:+ module) in Hp.
    rewrite Hp, getattr_single. cbv zeta. by rewrite Hign. }
  assert (contributed_dependency (ignore_list (h analysis))
            ("from " +:+ module +:+ " import " +:+ imported) = Some module) as H2.
  { unfold contributed_dependency.
    pose proof (parse_keyword_name "from" module (" import " +:+ imported)
                  (or_intror eq_refl) Hne Hvalid eq_refl) as Hp.
    change ("from" +:+ " " +:+ module +:+ " import " +:+ imported)
      with ("from " +:+ module +:+ " import " +:+ imported) in Hp.
    rewrite Hp, getattr_single. cbv zeta. by rewrite Hign. }
  cbn [omap list_omap]. by rewrite H1, H2.
Qed.

Lemma X12_witness_os :
  let h : Heap := fun _ =>
    {| source_directory := "/repo/src";
       ignore_list := ignore_containing [];
       statistics := Statistics.Make 0 0 |} in
  let result := fresh_result h 0 "m.py" "/repo/src/m.py" EmptyString in
  all_chars in_valid_name "os" = true
  ∧ ignore_list (h 0) "os" = false
  ∧ ∃ (result' : FileResult.t) (h' : Heap),
      import_lines 0 ["import " +:+ "os"; "from " +:+ "os" +:+ " import " +:+ "path"] (result, h)
      = inr (result', h')
      ∧ FileResult.scanned_import_dependencies result'
        = FileResult.scanned_import_dependencies result ++ ["os"; "os"]
      ∧ "import " +:+ "os" ≠ "from " +:+ "os" +:+ " import " +:+ "path".
Proof.
  intros h result. split; [reflexivity|]. split; [reflexivity|].
  apply (X12_two_lines_for_one_module_add_it_twice 0 result h "os" "path");
    [discriminate|reflexivity|reflexivity].
Defined.

(** ** Paths and unique names *)

Lemma parent_analysis_source_path_nonempty (source_directory : string) :
  parent_analysis_source_path source_directory ≠ EmptyString.
Proof. unfold parent_analysis_source_path. by destruct (PosixPath.to_string _). Qed.

Lemma registered_relative_path (self : PythonParser) (h : Heap) (analysis : ref)
    (file_name full_file_path file_content : string) :
  ∃ (file_result : FileResult.t) (h' : Heap),
    generate_file_result_from_analysis self h analysis file_name full_file_path file_content
    = inr ({| _results :=
                <[replace full_file_path
                    (parent_analysis_source_path (source_directory (h analysis))) ""
                  := file_result]> (_results self) |}, h')
    ∧ FileResult.relative_file_path_to_analysis file_result
      = replace full_file_path
          (parent_analysis_source_path (source_directory (h analysis))) "".
Proof.
  destruct (generate_file_result_returns self h analysis file_name full_file_path file_content)
    as (fr & h' & _ & Hframe & Hgen).
  exists fr, h'. split.
  - rewrite Hgen. by rewrite (proj1 (without_dependencies_fields _ _ Hframe)).
  - exact (f_equal FileResult.relative_file_path_to_analysis Hframe).
Qed.

(** X13: a file whose path is the parent of the analysis source directory,
    a slash, and a rest in which that prefix does not occur again is
    registered under the rest: the relative path of the result and its key
    in the results mapping are the path below the parent. *)
Theorem X13_file_below_the_parent_is_named_by_the_rest_of_its_path :
  ∀ (self : PythonParser) (h : Heap) (analysis : ref) (file_name rest file_content : string),
    contains (parent_analysis_source_path (source_directory (h analysis))) rest = false →
    ∃ (file_result : FileResult.t) (h' : Heap),
      generate_file_result_from_analysis self h analysis file_name
        (parent_analysis_source_path (source_directory (h analysis)) +:+ rest) file_content
      = inr ({| _results := <[rest := file_result]> (_results self) |}, h')
      ∧ FileResult.relative_file_path_to_analysis file_result = rest.
Proof.
  intros self h analysis file_name rest file_content Habsent.
  destruct (registered_relative_path self h analysis file_name
              (parent_analysis_source_path (source_directory (h analysis)) +:+ rest)
              file_content) as (fr & h' & Hgen & Hrel).
  rewrite (relative_path_under_parent _ _ Habsent) in Hgen, Hrel.
  by exists fr, h'.
Qed.

Lemma X13_witness_project_file :
  let h : Heap := fun _ =>
    {| source_directory := "/home/user/project/src";
       ignore_list := ignore_containing [];
       statistics := Statistics.Make 0 0 |} in
  contains (parent_analysis_source_path (source_directory (h 0))) "src/pkg/mod.py" = false
  ∧ parent_analysis_source_path (source_directory (h 0)) +:+ "src/pkg/mod.py"
    = "/home/user/project/src/pkg/mod.py"
  ∧ ∃ (file_result : FileResult.t) (h' : Heap),
      generate_file_result_from_analysis __init__ h 0 "mod.py"
        (parent_analysis_source_path (source_directory (h 0)) +:+ "src/pkg/mod.py")
        ("import os" +:+ newline)
      = inr ({| _results := <["src/pkg/mod.py" := file_result]> (_results __init__) |}, h')
      ∧ FileResult.relative_file_path_to_analysis file_result = "src/pkg/mod.py".
Proof.
  intros h. split; [reflexivity|]. split; [reflexivity|].
  apply (X13_file_below_the_parent_is_named_by_the_rest_of_its_path __init__ h 0 "mod.py"
           "src/pkg/mod.py" ("import os" +:+ newline)).
  reflexivity.
Defined.

(** X14: a file whose path does not contain the parent of the analysis
    source directory followed by a slash keeps its full path as relative
    path and as key in the results mapping. *)
Theorem X14_file_outside_the_parent_keeps_its_full_path :
  ∀ (self : PythonParser) (h : Heap) (analysis : ref)
    (file_name full_file_path file_content : string),
    contains (parent_analysis_source_path (source_directory (h analysis))) full_file_path
    = false →
    ∃ (file_result : FileResult.t) (h' : Heap),
      generate_file_result_from_analysis self h analysis file_name full_file_path file_content
      = inr ({| _results := <[full_file_path := file_result]> (_results self) |}, h')
      ∧ FileResult.relative_file_path_to_analysis file_result = full_file_path.
Proof.
  intros self h analysis file_name full_file_path file_content Habsent.
  destruct (registered_relative_path self h analysis file_name full_file_path file_content)
    as (fr & h' & Hgen & Hrel).
  rewrite (replace_absent _ _ _ (parent_analysis_source_path_nonempty _) Habsent)
    in Hgen, Hrel.
  by exists fr, h'.
Qed.

Lemma X14_witness_file_elsewhere :
  let h : Heap := fun _ =>
    {| source_directory := "/home/user/project/src";
       ignore_list := ignore_containing [];
       statistics := Statistics.Make 0 0 |} in
  contains (parent_analysis_source_path (source_directory (h 0))) "/opt/lib/other.py" = false
  ∧ ∃ (file_result : FileResult.t) (h' : Heap),
      generate_file_result_from_analysis __init__ h 0 "other.py" "/opt/lib/other.py"
        ("import os" +:+ newline)
      = inr ({| _results := <["/opt/lib/other.py" := file_result]> (_results __init__) |}, h')
      ∧ FileResult.relative_file_path_to_analysis file_result = "/opt/lib/other.py".
Proof.
  intros h. split; [reflexivity|].
  apply (X14_file_outside_the_parent_keeps_its_full_path __init__ h 0 "other.py"
           "/opt/lib/other.py" ("import os" +:+ newline)).
  reflexivity.
Defined.

Lemma lstrip_slashes_app (dir s : string) :
  (PosixPath.lstrip_slashes dir).2 ≠ EmptyString →
  PosixPath.lstrip_slashes (dir +:+ s)
  = ((PosixPath.lstrip_slashes dir).1, (PosixPath.lstrip_slashes dir).2 +:+ s).
Proof.
  induction dir as [|c dir IH]; [done|].
  change (String c dir +:+ s) with (String c (dir +:+ s)).
  cbn [PosixPath.lstrip_slashes].
  destruct (Ascii.eqb c "/"); [|done].
  destruct (PosixPath.lstrip_slashes dir) as [n r] eqn:Hd. simpl.
  intros Hr. rewrite (IH Hr). done.
Qed.

Lemma splitroot_app (dir s : string) :
  (PosixPath.lstrip_slashes dir).2 ≠ EmptyString →
  PosixPath.splitroot (dir +:+ s)
  = ((PosixPath.splitroot dir).1, (PosixPath.splitroot dir).2 +:+ s).
Proof.
  intros Hr. unfold PosixPath.splitroot. rewrite (lstrip_slashes_app _ _ Hr).
  destruct (PosixPath.lstrip_slashes dir) as [n r]. simpl.
  by destruct n as [|[|[|n]]].
Qed.

Lemma split_on_app_sep (sep : ascii) (cur a b : string) :
  split_on sep cur (a +:+ String sep b) = split_on sep cur a ++ split_on sep EmptyString b.
Proof.
  revert cur. induction a as [|c a IH]; intros cur.
  - simpl. by rewrite Ascii.eqb_refl.
  - change (String c a +:+ String sep b) with (String c (a +:+ String sep b)).
    cbn [split_on]. destruct (Ascii.eqb c sep); by rewrite IH.
Qed.

Lemma split_on_no_sep (sep : ascii) (cur name : string) :
  all_chars (fun c => negb (Ascii.eqb c sep)) name = true →
  split_on sep cur name = [cur +:+ name].
Proof.
  revert cur. induction name as [|c name IH]; intros cur; simpl.
  - by rewrite append_nil_r.
  - intros [Hc Hname]%andb_true_iff. apply negb_true_iff in Hc. rewrite Hc.
    rewrite (IH _ Hname). by rewrite append_assoc.
Qed.

(** X15: for a directory path with at least one character that is not a
    slash and a component [name], the parent of the path [dir/name] is the
    path [dir]: the text that the file path is cut by is the normalized
    directory followed by a slash. *)
Theorem X15_parent_of_a_directory_and_a_component_is_the_directory :
  ∀ dir name : string,
    (PosixPath.lstrip_slashes dir).2 ≠ EmptyString →
    is_component name = true →
    PosixPath.parent (PosixPath.of_string (dir +:+ "/" +:+ name)) = PosixPath.of_string dir
    ∧ parent_analysis_source_path (dir +:+ "/" +:+ name)
      = PosixPath.to_string (PosixPath.of_string dir) +:+ "/".
Proof.
  intros dir name Hdir [Hname Hnoslash]%andb_true_iff.
  assert (PosixPath.parent (PosixPath.of_string (dir +:+ "/" +:+ name))
          = PosixPath.of_string dir) as Hparent.
  { unfold PosixPath.of_string. rewrite (splitroot_app _ _ Hdir).
    destruct (PosixPath.splitroot dir) as [root rel]. cbn [fst snd].
    change ("/" +:+ name) with (String "/" name).
    rewrite split_on_app_sep, (split_on_no_sep _ _ _ Hnoslash). simpl "+:+".
    rewrite List.filter_app. simpl List.filter. rewrite Hname.
    unfold PosixPath.parent. simpl. by rewrite removelast_last. }
  split; [exact Hparent|]. unfold parent_analysis_source_path. by rewrite Hparent.
Qed.

Lemma X15_witness_project_src :
  (PosixPath.lstrip_slashes "/home/user/project").2 ≠ EmptyString
  ∧ is_component "src" = true
  ∧ parent_analysis_source_path ("/home/user/project" +:+ "/" +:+ "src")
    = "/home/user/project/".
Proof.
  assert ((PosixPath.lstrip_slashes "/home/user/project").2 ≠ EmptyString) as Hdir
    by discriminate.
  split; [exact Hdir|]. split; [reflexivity|].
  exact (proj2 (X15_parent_of_a_directory_and_a_component_is_the_directory
                  "/home/user/project" "src" Hdir eq_refl)).
Defined.

(** ** Analysing several files *)

Lemma result_determined (r r' : FileResult.t) (dependencies : list string) :
  without_dependencies r' = without_dependencies r →
  FileResult.scanned_import_dependencies r' = dependencies →
  r' = with_dependencies r dependencies.
Proof.
  destruct r, r'. unfold without_dependencies, with_dependencies. simpl.
  intros Hrest Hdeps. injection Hrest as ?. by subst.
Qed.

Lemma generate_file_result_exact (self : PythonParser) (h : Heap) (analysis : ref)
    (file_name full_file_path file_content : string) :
  ∃ h' : Heap,
    generate_file_result_from_analysis self h analysis file_name full_file_path file_content
    = inr ({| _results :=
                <[replace full_file_path
                    (parent_analysis_source_path (source_directory (h analysis))) ""
                  := registered_result h analysis file_name full_file_path file_content]>
                  (_results self) |}, h')
    ∧ (∀ b, source_directory (h' b) = source_directory (h b)
            ∧ ignore_list (h' b) = ignore_list (h b))
    ∧ (∀ b, Statistics.parsing_hits (statistics (h' b))
            = Statistics.parsing_hits (statistics (h b))
              + (if bool_decide (b = analysis)
                 then length (List.filter grammar_matches
                                (source_import_lines_of
                                   (preprocess_file_content_and_generate_token_list_by_mapping
                                      file_content _token_mappings)))
                 else 0))
    ∧ (∀ b, Statistics.parsing_misses (statistics (h' b))
            = Statistics.parsing_misses (statistics (h b))
              + (if bool_decide (b = analysis)
                 then length (List.filter (fun l => negb (grammar_matches l))
                                (source_import_lines_of
                                   (preprocess_file_content_and_generate_token_list_by_mapping
                                      file_content _token_mappings)))
                 else 0)).
Proof.
  set (lines := source_import_lines_of
                  (preprocess_file_content_and_generate_token_list_by_mapping
                     file_content _token_mappings)).
  destruct (import_lines_run analysis lines
              (fresh_result h analysis file_name full_file_path file_content) h)
    as (r' & h' & Hrun & Hframe & Hdeps & Hcfg & Hhits & Hmiss).
  exists h'.
  assert (r' = registered_result h analysis file_name full_file_path file_content) as ->.
  { apply result_determined; [done|]. by rewrite Hdeps. }
  split; [|split; [exact Hcfg|split; [exact Hhits|exact Hmiss]]].
  by rewrite (generate_file_result_on_lines _ _ _ _ _ _ _ lines _ eq_refl Hrun).
Qed.

Lemma registered_result_config (h h' : Heap) (analysis : ref)
    (file_name full_file_path file_content : string) :
  source_directory (h' analysis) = source_directory (h analysis) →
  ignore_list (h' analysis) = ignore_list (h analysis) →
  registered_result h' analysis file_name full_file_path file_content
  = registered_result h analysis file_name full_file_path file_content.
Proof.
  intros Hdir Hign. unfold registered_result, fresh_result. by rewrite Hdir, Hign.
Qed.

Lemma statistics_eq (s s' : Statistics.t) :
  Statistics.parsing_hits s = Statistics.parsing_hits s' →
  Statistics.parsing_misses s = Statistics.parsing_misses s' → s = s'.
Proof. destruct s, s'. simpl. by intros -> ->. Qed.

(** X16: analysing the same file a second time leaves the results mapping as
    it was after the first time, the result is replaced by an equal one, and
    counts the retained lines of the file once more: the hits and the misses
    of the analysis grow by the same amounts as the first time. *)
Theorem X16_analysing_a_file_again_keeps_the_results_and_counts_again :
  ∀ (self : PythonParser) (h : Heap) (analysis : ref)
    (file_name full_file_path file_content : string),
    ∃ (self1 self2 : PythonParser) (h1 h2 : Heap),
      generate_file_result_from_analysis self h analysis file_name full_file_path file_content
      = inr (self1, h1)
      ∧ generate_file_result_from_analysis self1 h1 analysis file_name full_file_path
          file_content = inr (self2, h2)
      ∧ _results self2 = _results self1
      ∧ Statistics.parsing_hits (statistics (h2 analysis))
        + Statistics.parsing_hits (statistics (h analysis))
        = 2 * Statistics.parsing_hits (statistics (h1 analysis))
      ∧ Statistics.parsing_misses (statistics (h2 analysis))
        + Statistics.parsing_misses (statistics (h analysis))
        = 2 * Statistics.parsing_misses (statistics (h1 analysis)).
Proof.
  intros self h analysis file_name full_file_path file_content.
  destruct (generate_file_result_exact self h analysis file_name full_file_path file_content)
    as (h1 & Hgen1 & Hcfg1 & Hhits1 & Hmiss1).
  set (name := replace full_file_path
                 (parent_analysis_source_path (source_directory (h analysis))) "") in *.
  set (r := registered_result h analysis file_name full_file_path file_content) in *.
  destruct (generate_file_result_exact {| _results := <[name := r]> (_results self) |}
              h1 analysis file_name full_file_path file_content)
    as (h2 & Hgen2 & _ & Hhits2 & Hmiss2).
  destruct (Hcfg1 analysis) as [Hdir Hign].
  rewrite (registered_result_config h h1 _ _ _ _ Hdir Hign), Hdir in Hgen2.
  fold name r in Hgen2. cbn [_results] in Hgen2.
  exists {| _results := <[name := r]> (_results self) |},
         {| _results := <[name := r]> (<[name := r]> (_results self)) |}, h1, h2.
  split; [exact Hgen1|]. split; [exact Hgen2|]. cbn [_results].
  split; [apply insert_insert_eq|].
  specialize (Hhits1 analysis). specialize (Hmiss1 analysis).
  specialize (Hhits2 analysis). specialize (Hmiss2 analysis).
  rewrite bool_decide_eq_true_2 in Hhits1, Hmiss1, Hhits2, Hmiss2 by done.
  lia.
Qed.

(** X17: the outcome of analysing two files with the same analysis does not
    depend on their order when they get different names: the results mapping
    is the same, and so are the statistics of every analysis. *)
Theorem X17_two_files_can_be_analysed_in_either_order :
  ∀ (self : PythonParser) (h : Heap) (analysis : ref)
    (name_a path_a content_a name_b path_b content_b : string),
    replace path_a (parent_analysis_source_path (source_directory (h analysis))) ""
    ≠ replace path_b (parent_analysis_source_path (source_directory (h analysis))) "" →
    ∃ (self_a self_ab self_b self_ba : PythonParser) (h_a h_ab h_b h_ba : Heap),
      generate_file_result_from_analysis self h analysis name_a path_a content_a
      = inr (self_a, h_a)
      ∧ generate_file_result_from_analysis self_a h_a analysis name_b path_b content_b
        = inr (self_ab, h_ab)
      ∧ generate_file_result_from_analysis self h analysis name_b path_b content_b
        = inr (self_b, h_b)
      ∧ generate_file_result_from_analysis self_b h_b analysis name_a path_a content_a
        = inr (self_ba, h_ba)
      ∧ _results self_ab = _results self_ba
      ∧ ∀ b : ref, statistics (h_ab b) = statistics (h_ba b).
Proof.
  intros self h analysis name_a path_a content_a name_b path_b content_b Hne.
  destruct (generate_file_result_exact self h analysis name_a path_a content_a)
    as (h_a & Hgen_a & Hcfg_a & Hhits_a & Hmiss_a).
  destruct (generate_file_result_exact self h analysis name_b path_b content_b)
    as (h_b & Hgen_b & Hcfg_b & Hhits_b & Hmiss_b).
  set (key_a := replace path_a
                  (parent_analysis_source_path (source_directory (h analysis))) "") in *.
  set (key_b := replace path_b
                  (parent_analysis_source_path (source_directory (h analysis))) "") in *.
  set (r_a := registered_result h analysis name_a path_a content_a) in *.
  set (r_b := registered_result h analysis name_b path_b content_b) in *.
  destruct (generate_file_result_exact {| _results := <[key_a := r_a]> (_results self) |}
              h_a analysis name_b path_b content_b)
    as (h_ab & Hgen_ab & _ & Hhits_ab & Hmiss_ab).
  destruct (generate_file_result_exact {| _results := <[key_b := r_b]> (_results self) |}
              h_b analysis name_a path_a content_a)
    as (h_ba & Hgen_ba & _ & Hhits_ba & Hmiss_ba).
  destruct (Hcfg_a analysis) as [Hdir_a Hign_a]. destruct (Hcfg_b analysis) as [Hdir_b Hign_b].
  rewrite (registered_result_config h h_a _ _ _ _ Hdir_a Hign_a), Hdir_a in Hgen_ab.
  rewrite (registered_result_config h h_b _ _ _ _ Hdir_b Hign_b), Hdir_b in Hgen_ba.
  fold key_a key_b r_a r_b in Hgen_ab, Hgen_ba. cbn [_results] in Hgen_ab, Hgen_ba.
  exists {| _results := <[key_a := r_a]> (_results self) |},
         {| _results := <[key_b := r_b]> (<[key_a := r_a]> (_results self)) |},
         {| _results := <[key_b := r_b]> (_results self) |},
         {| _results := <[key_a := r_a]> (<[key_b := r_b]> (_results self)) |},
         h_a, h_ab, h_b, h_ba.
  split; [exact Hgen_a|]. split; [exact Hgen_ab|]. split; [exact Hgen_b|].
  split; [exact Hgen_ba|]. cbn [_results]. split.
  - by apply insert_insert_ne.
  - intros b. apply statistics_eq.
    + rewrite Hhits_ab, Hhits_a, Hhits_ba, Hhits_b. lia.
    + rewrite Hmiss_ab, Hmiss_a, Hmiss_ba, Hmiss_b. lia.
Qed.

Lemma X17_witness_two_modules :
  let h : Heap := fun _ =>
    {| source_directory := "/repo/src";
       ignore_list := ignore_containing [];
       statistics := Statistics.Make 0 0 |} in
  replace "/repo/src/a.py" (parent_analysis_source_path (source_directory (h 0))) ""
  ≠ replace "/repo/src/b.py" (parent_analysis_source_path (source_directory (h 0))) ""
  ∧ ∃ (self_a self_ab self_b self_ba : PythonParser) (h_a h_ab h_b h_ba : Heap),
      generate_file_result_from_analysis __init__ h 0 "a.py" "/repo/src/a.py"
        ("import os" +:+ newline) = inr (self_a, h_a)
      ∧ generate_file_result_from_analysis self_a h_a 0 "b.py" "/repo/src/b.py"
          ("importxyz" +:+ newline) = inr (self_ab, h_ab)
      ∧ generate_file_result_from_analysis __init__ h 0 "b.py" "/repo/src/b.py"
          ("importxyz" +:+ newline) = inr (self_b, h_b)
      ∧ generate_file_result_from_analysis self_b h_b 0 "a.py" "/repo/src/a.py"
          ("import os" +:+ newline) = inr (self_ba, h_ba)
      ∧ _results self_ab = _results self_ba
      ∧ ∀ b : ref, statistics (h_ab b) = statistics (h_ba b).
Proof.
  intros h.
  assert (replace "/repo/src/a.py" (parent_analysis_source_path (source_directory (h 0))) ""
          ≠ replace "/repo/src/b.py" (parent_analysis_source_path (source_directory (h 0))) "")
    as Hne by (vm_compute; discriminate).
  split; [exact Hne|].
  exact (X17_two_files_can_be_analysed_in_either_order __init__ h 0 "a.py" "/repo/src/a.py"
           ("import os" +:+ newline) "b.py" "/repo/src/b.py" ("importxyz" +:+ newline) Hne).
Defined.

(** ** The unique name of a file (C9) *)

Lemma component_head (name : string) :
  is_component name = true →
  ∃ c more, name = String c more ∧ Ascii.eqb c "/" = false.
Proof.
  intros [Hname Hnoslash]%andb_true_iff. destruct name as [|c more]; [done|].
  simpl in Hnoslash. apply andb_true_iff in Hnoslash as [Hc _].
  apply negb_true_iff in Hc. by exists c, more.
Qed.

Lemma split_on_join (components : list string) :
  components ≠ [] →
  Forall (fun c => is_component c = true) components →
  split_on "/" EmptyString (join "/" components) = components.
Proof.
  intros Hne Hall. induction Hall as [|x l Hx Hl IH]; [done|].
  apply andb_true_iff in Hx as [_ Hnoslash].
  destruct l as [|y l].
  - simpl. by rewrite (split_on_no_sep _ _ _ Hnoslash).
  - change (join "/" (x :: y :: l)) with (x +:+ String "/" (join "/" (y :: l))).
    rewrite split_on_app_sep, (split_on_no_sep _ _ _ Hnoslash), IH by done. done.
Qed.

Lemma filter_components (components : list string) :
  Forall (fun c => is_component c = true) components →
  List.filter PosixPath.is_name components = components.
Proof.
  induction 1 as [|x l Hx Hl IH]; [done|].
  apply andb_true_iff in Hx as [Hname _]. simpl. by rewrite Hname, IH.
Qed.

(** [PosixPath] reads an absolute path back into its components. *)
Lemma of_string_absolute_path (components : list string) :
  Forall (fun c => is_component c = true) components →
  PosixPath.of_string (absolute_path components) = PosixPath.Make "/" components.
Proof.
  intros Hall. unfold absolute_path.
  destruct components as [|x l]; [reflexivity|].
  assert (PosixPath.lstrip_slashes ("/" +:+ join "/" (x :: l)) = (1, join "/" (x :: l)))
    as Hstrip.
  { assert (∃ c more, join "/" (x :: l) = String c more ∧ Ascii.eqb c "/" = false)
      as (c & more & Hjoin & Hc).
    { apply Forall_cons in Hall as [Hx _].
      destruct (component_head x Hx) as (c & more & -> & Hc).
      destruct l; by eexists _, _. }
    rewrite Hjoin. change ("/" +:+ String c more) with (String "/" (String c more)).
    cbn [PosixPath.lstrip_slashes]. by rewrite Hc. }
  unfold PosixPath.of_string, PosixPath.splitroot. rewrite Hstrip. cbv iota beta.
  rewrite split_on_join by done. by rewrite filter_components.
Qed.

(** The text by which file paths are cut, for an absolute source directory:
    the path of its parent directory and a slash. *)
Lemma parent_path_of_absolute_directory (components : list string) (name : string) :
  Forall (fun c => is_component c = true) (components ++ [name]) →
  parent_analysis_source_path (absolute_path (components ++ [name]))
  = absolute_path components +:+ "/".
Proof.
  intros Hall. unfold parent_analysis_source_path.
  rewrite (of_string_absolute_path _ Hall). unfold PosixPath.parent. simpl PosixPath.names.
  by rewrite removelast_last.
Qed.

(** C9: the unique name of the result is the full file path in which the
    parent of the analysis source directory, followed by a slash, is replaced
    by the empty string; the result that import extraction returns is
    inserted into the results mapping under that name.  What is cut off is
    the path of the parent directory, not the source directory itself: for a
    source directory [/c1/../cn/name] and a file path [/c1/../cn/] followed
    by a rest in which that prefix does not occur again, the unique name and
    the key in the mapping are the rest, which starts with [name] for a file
    inside the source directory. *)
Theorem C9_result_is_registered_under_its_relative_path :
  ∀ (self : PythonParser) (h : Heap) (analysis : ref)
    (file_name full_file_path file_content : string),
    ∃ (file_result : FileResult.t) (h' : Heap) (self' : PythonParser),
      _add_imports_to_result self (fresh_result h analysis file_name full_file_path file_content)
        analysis h = inr (file_result, h')
      ∧ generate_file_result_from_analysis self h analysis file_name full_file_path file_content
        = inr (self', h')
      ∧ FileResult.unique_name file_result
        = replace full_file_path
            (parent_analysis_source_path (source_directory (h analysis))) ""
      ∧ _results self'
        = <[replace full_file_path
              (parent_analysis_source_path (source_directory (h analysis))) "" := file_result]>
            (_results self)
      ∧ _results self' !! FileResult.unique_name file_result = Some file_result
      ∧ (∀ (components : list string) (name rest : string),
           Forall (fun c => is_component c = true) (components ++ [name]) →
           source_directory (h analysis) = absolute_path (components ++ [name]) →
           full_file_path = absolute_path components +:+ "/" +:+ rest →
           contains (absolute_path components +:+ "/") rest = false →
           FileResult.unique_name file_result = rest
           ∧ _results self' = <[rest := file_result]> (_results self)
           ∧ _results self' !! rest = Some file_result).
Proof.
  intros self h analysis file_name full_file_path file_content.
  destruct (generate_file_result_returns self h analysis file_name full_file_path file_content)
    as (fr & h' & Himp & Hframe & Hgen).
  apply without_dependencies_fields in Hframe as (Hname & _).
  change (FileResult.unique_name
            (fresh_result h analysis file_name full_file_path file_content))
    with (replace full_file_path
            (parent_analysis_source_path (source_directory (h analysis))) "") in Hname.
  exists fr, h', {| _results := <[FileResult.unique_name fr := fr]> (_results self) |}.
  split; [done|]. split; [done|]. split; [done|]. cbn [_results].
  split; [by rewrite Hname|]. split; [apply lookup_insert_eq|].
  intros components name rest Hall Hdir Hpath Habsent.
  assert (FileResult.unique_name fr = rest) as Hrest.
  { rewrite Hname, Hdir, (parent_path_of_absolute_directory _ _ Hall), Hpath.
    rewrite <- append_assoc.
    assert (absolute_path components +:+ "/" ≠ EmptyString) as Hne by done.
    by rewrite (replace_prefix _ _ _ Hne), (replace_absent _ _ _ Hne Habsent). }
  rewrite Hrest. split; [done|]. split; [done|]. apply lookup_insert_eq.
Qed.

(** A file inside the source directory [/home/user/project/src]: the parent
    [/home/user/project/] is cut off and the name starts with [src]. *)
Lemma C9_witness_file_in_source_directory :
  let h : Heap := fun _ =>
    {| source_directory := "/home/user/project/src";
       ignore_list := ignore_containing [];
       statistics := Statistics.Make 0 0 |} in
  Forall (fun c => is_component c = true) (["home"; "user"; "project"] ++ ["src"])
  ∧ absolute_path (["home"; "user"; "project"] ++ ["src"]) = "/home/user/project/src"
  ∧ absolute_path ["home"; "user"; "project"] +:+ "/" +:+ "src/pkg/mod.py"
    = "/home/user/project/src/pkg/mod.py"
  ∧ contains (absolute_path ["home"; "user"; "project"] +:+ "/") "src/pkg/mod.py" = false
  ∧ ∃ (file_result : FileResult.t) (h' : Heap) (self' : PythonParser),
      generate_file_result_from_analysis __init__ h 0 "mod.py"
        "/home/user/project/src/pkg/mod.py" ("import os" +:+ newline) = inr (self', h')
      ∧ FileResult.unique_name file_result = "src/pkg/mod.py"
      ∧ _results self' !! "src/pkg/mod.py" = Some file_result.
Proof.
  intros h.
  assert (Forall (fun c => is_component c = true) (["home"; "user"; "project"] ++ ["src"]))
    as Hall by (repeat constructor).
  split; [exact Hall|]. split; [reflexivity|]. split; [reflexivity|]. split; [reflexivity|].
  destruct (C9_result_is_registered_under_its_relative_path __init__ h 0 "mod.py"
              "/home/user/project/src/pkg/mod.py" ("import os" +:+ newline))
    as (fr & h' & self' & _ & Hgen & _ & _ & _ & Hcut).
  destruct (Hcut ["home"; "user"; "project"] "src" "src/pkg/mod.py" Hall eq_refl eq_refl
              eq_refl) as (Hname & _ & Hlook).
  by exists fr, h', self'.
Defined.
